(** * calculator.py: the [add] function and its demonstration block

    A shallow embedding of [src/backend/calculator.py].  The whole source is

    <<
    def add(a, b):
        return a + b

    if __name__ == "__main__":
        num1 = 5
        num2 = 3
        result = add(num1, num2)
        print(f"{num1} + {num2} = {result}")
        print(f"10 + 20 = {add(10, 20)}")
        print(f"3.5 + 2.5 = {add(3.5, 2.5)}")
        print(f"-5 + 15 = {add(-5, 15)}")
    >>

    so what the program does is decided by the meaning of [+], of
    f-string conversion and of [print] on the objects it is handed.  Those
    are modelled after CPython on a universe of built-in objects: [None],
    [bool], [int], [float], [str] and [list], first as values, then, for
    what a call does to its arguments, as objects in a heap together with
    instances of user classes that define [__add__] and [__radd__]. *)

From Stdlib Require Import ZArith List String Ascii Bool Lia.
From Stdlib Require Import Floats.SpecFloat.
From Stdlib Require Import DecimalString DecimalZ.
Import ListNotations.
Open Scope string_scope.
Open Scope Z_scope.

Set Implicit Arguments.
Set Warnings "-register-all".

(** ** Decimal text of an [int] *)

Definition str_Z (z : Z) : string := NilZero.string_of_int (Z.to_int z).

Definition ndigits (z : Z) : Z := Z.of_nat (String.length (str_Z z)).

(** ** [float]: IEEE 754 binary64 *)

Module Float64.

Definition prec : Z := 53.
Definition emax : Z := 1024.

Definition float := spec_float.

Definition valid (x : float) : bool := valid_binary prec emax x.

Definition is_nan (x : float) : bool :=
  match x with S754_nan => true | _ => false end.

Definition is_finite (x : float) : bool :=
  match x with S754_zero _ | S754_finite _ _ _ => true | _ => false end.

(** [m * 2^e] rounded to the nearest double, ties to even; beyond the
    largest double this is an infinity. *)
Definition of_scaled (m e : Z) : float := binary_normalize prec emax m e false.

Definition of_Z (z : Z) : float := of_scaled z 0.

(** A decimal literal [m * 10^k] of the source text, correctly rounded. *)
Definition of_decimal (m k : Z) : float :=
  if 0 <=? k then of_Z (m * 10 ^ k)
  else
    match m with
    | Z0 => S754_zero false
    | _ =>
        let '(q, e, l) :=
          SFdiv_core_binary prec emax (Z.abs m) 0 (10 ^ (- k)) 0 in
        binary_round_aux prec emax (m <? 0) q e l
    end.

(** The C addition of two doubles, round to nearest even. *)
Definition fadd (x y : float) : float := SFadd prec emax x y.

(** The C comparison [x == y]: false on a NaN, true on zeros of either sign. *)
Definition feqb (x y : float) : bool := SFeqb x y.

(** The exact comparison of a double with an integer that [==] performs. *)
Definition eqb_Z (x : float) (z : Z) : bool :=
  match x with
  | S754_zero _ => z =? 0
  | S754_finite s m e =>
      let v := cond_Zopp s (Zpos m) in
      if 0 <=? e then z =? v * 2 ^ e else z * 2 ^ (- e) =? v
  | _ => false
  end.

(** *** [repr]: the shortest decimal text that reads back as the same double

    For the positive double [m * 2^e], the decimals that read back as it
    lie between the midpoints to its two neighbours; the lower midpoint is
    closer when [m] is the least mantissa of its binade.  Midpoints
    themselves read back as the double exactly when [m] is even. *)

Definition cmp_scaled (c k b s : Z) : comparison :=
  (c * 10 ^ Z.max k 0 * 2 ^ Z.max (- s) 0)
    ?= (b * 2 ^ Z.max s 0 * 10 ^ Z.max (- k) 0).

Definition low_mark (m e : Z) : Z :=
  if (m =? 2 ^ (prec - 1)) && (3 - emax - prec <? e)
  then 4 * m - 1 else 4 * m - 2.

Definition reads_back (m e c k : Z) : bool :=
  match cmp_scaled c k (low_mark m e) (e - 2),
        cmp_scaled c k (4 * m + 2) (e - 2) with
  | Gt, Lt => true
  | Eq, Lt | Gt, Eq => Z.even m
  | _, _ => false
  end.

(** The position [d] of the decimal point: [10^(d-1) <= num/den < 10^d]. *)
Definition decimal_point (num den : Z) : Z :=
  if den <=? num then ndigits (num / den)
  else 1 - ndigits ((den - 1) / num).

Definition floor_scaled (m e k : Z) : Z :=
  (m * 2 ^ Z.max e 0 * 10 ^ Z.max (- k) 0)
    / (2 ^ Z.max (- e) 0 * 10 ^ Z.max k 0).

(** Whether [c * 10^k] is the nearer of [c * 10^k] and [(c + 1) * 10^k] to
    [m * 2^e]; halfway between them, the even one is. *)
Definition nearer_low (m e c k : Z) : bool :=
  match cmp_scaled (2 * c + 1) k (2 * m) e with
  | Lt => false
  | Eq => Z.even c
  | Gt => true
  end.

(** The decimal [c * 10^k], at scale [k], nearest to [m * 2^e] among
    those that read back as it, if there is one. *)
Definition candidate (m e k : Z) : option Z :=
  let c := floor_scaled m e k in
  match reads_back m e c k, reads_back m e (c + 1) k with
  | true, true => Some (if nearer_low m e c k then c else c + 1)
  | true, false => Some c
  | false, true => Some (c + 1)
  | false, false => None
  end.

(** Try 1, 2, ... significant digits; 17 always suffice. *)
Fixpoint shortest (fuel : nat) (m e d n : Z) : Z * Z :=
  match fuel with
  | O => let c := floor_scaled m e (d - n) in
         (if nearer_low m e c (d - n) then c else c + 1, d - n)
  | S fuel' =>
      match candidate m e (d - n) with
      | Some c => (c, d - n)
      | None => shortest fuel' m e d (n + 1)
      end
  end.

Fixpoint strip_zeros (fuel : nat) (c k : Z) : Z * Z :=
  match fuel with
  | O => (c, k)
  | S fuel' =>
      if (c mod 10 =? 0) && (0 <? c)
      then strip_zeros fuel' (c / 10) (k + 1) else (c, k)
  end.

(** The digit string and the position of the decimal point before it. *)
Definition digits_of (m e : Z) : string * Z :=
  let d := decimal_point (m * 2 ^ Z.max e 0) (2 ^ Z.max (- e) 0) in
  let '(c, k) := shortest 16 m e d 1 in
  let '(c', k') := strip_zeros 20 c k in
  (str_Z c', k' + ndigits c').

Fixpoint zeros (n : nat) : string :=
  match n with O => "" | S n' => String "0" (zeros n') end.

Definition exponent_str (x : Z) : string :=
  let a := str_Z (Z.abs x) in
  (if x <? 0 then "-" else "+") ++ (if Z.abs x <? 10 then "0" ++ a else a).

(** Fixed notation with at least one digit after the point, or scientific
    notation when the point would fall outside [-4 < decpt <= 16]. *)
Definition format_short (digits : string) (decpt : Z) : string :=
  let n := Z.of_nat (String.length digits) in
  if (decpt <=? -4) || (16 <? decpt) then
    let head := substring 0 1 digits in
    let tail := substring 1 (String.length digits - 1) digits in
    head ++ (if 1 <? n then "." ++ tail else "")
         ++ "e" ++ exponent_str (decpt - 1)
  else if decpt <=? 0 then
    "0." ++ zeros (Z.to_nat (- decpt)) ++ digits
  else if n <=? decpt then
    digits ++ zeros (Z.to_nat (decpt - n)) ++ ".0"
  else
    substring 0 (Z.to_nat decpt) digits ++ "."
      ++ substring (Z.to_nat decpt)
                   (String.length digits - Z.to_nat decpt) digits.

Definition float_repr (x : float) : string :=
  match x with
  | S754_nan => "nan"
  | S754_infinity s => if s then "-inf" else "inf"
  | S754_zero s => if s then "-0.0" else "0.0"
  | S754_finite s m e =>
      let '(digits, decpt) := digits_of (Zpos m) e in
      (if s then "-" else "") ++ format_short digits decpt
  end.

End Float64.

Import Float64.

(** ** Objects *)

Inductive value : Type :=
| VNone
| VBool (b : bool)
| VInt (z : Z)
| VFloat (x : float)
| VStr (s : string)
| VList (items : list value).

Inductive pytype : Type :=
| NoneType | bool_type | int_type | float_type | str_type | list_type.

Definition type_of (v : value) : pytype :=
  match v with
  | VNone => NoneType
  | VBool _ => bool_type
  | VInt _ => int_type
  | VFloat _ => float_type
  | VStr _ => str_type
  | VList _ => list_type
  end.

Definition pytype_eqb (t u : pytype) : bool :=
  match t, u with
  | NoneType, NoneType | bool_type, bool_type | int_type, int_type
  | float_type, float_type | str_type, str_type | list_type, list_type => true
  | _, _ => false
  end.

(** [bool] is the one proper subclass among these types. *)
Definition is_subtype (t u : pytype) : bool :=
  pytype_eqb t u
  || match t, u with bool_type, int_type => true | _, _ => false end.

(** ** Exceptions and outcomes *)

(** The exceptions the modelled operations raise, and under
    [OtherError] any other, by the name of its class. *)
Inductive exn : Type :=
| TypeError
| OverflowError
| ValueError
| OtherError (name : string).

Inductive result (A : Type) : Type :=
| Ok (a : A)
| Raise (e : exn).

Arguments Raise {A} e.

(** ** The program state: the text written to standard output so far, and
    a probe log that only [traced] writes and nothing reads. *)

Record world : Type := { stdout : string; calls : list (value * value) }.

Definition M (A : Type) : Type := world -> result A * world.

Definition ret {A : Type} (a : A) : M A := fun w => (Ok a, w).

Definition raise {A : Type} (e : exn) : M A := fun w => (Raise e, w).

Definition bind {A B : Type} (c : M A) (k : A -> M B) : M B :=
  fun w =>
    match c w with
    | (Ok a, w') => k a w'
    | (Raise e, w') => (Raise e, w')
    end.

Definition lift {A : Type} (r : result A) : M A := fun w => (r, w).

Declare Scope py_scope.
Delimit Scope py_scope with py.
Notation "x <- c ;; k" := (bind c (fun x => k))
  (at level 61, c at next level, right associativity) : py_scope.
Notation "c ;; k" := (bind c (fun _ => k))
  (at level 61, right associativity) : py_scope.

Definition newline : string := String (ascii_of_nat 10) EmptyString.

(** [print(s)] *)
Definition print (s : string) : M unit :=
  fun w => (Ok tt, {| stdout := stdout w ++ s ++ newline; calls := calls w |}).

(** ** The operator [+]

    [PyNumber_Add] tries the [nb_add] slot of the left then of the right
    operand's type, and falls back on the left operand's [sq_concat]. *)

Inductive slot_result : Type :=
| NotImplemented
| Returned (r : result value).

(** [PyLong_Check]: ints and bools, with their integer value. *)
Definition as_long (v : value) : option Z :=
  match v with
  | VInt z => Some z
  | VBool b => Some (Z.b2z b)
  | _ => None
  end.

(** [PyLong_AsDouble]: the nearest double, or [OverflowError]. *)
Definition PyLong_AsDouble (z : Z) : result float :=
  let x := of_Z z in
  if is_finite x then Ok x else Raise OverflowError.

(** [CONVERT_TO_DOUBLE], [None] standing for [NotImplemented]. *)
Definition convert_to_double (v : value) : option (result float) :=
  match v with
  | VFloat x => Some (Ok x)
  | _ => match as_long v with
         | Some z => Some (PyLong_AsDouble z)
         | None => None
         end
  end.

Definition long_add (v w : value) : slot_result :=
  match as_long v, as_long w with
  | Some a, Some b => Returned (Ok (VInt (a + b)))
  | _, _ => NotImplemented
  end.

Definition float_add (v w : value) : slot_result :=
  match convert_to_double v with
  | None => NotImplemented
  | Some (Raise e) => Returned (Raise e)
  | Some (Ok a) =>
      match convert_to_double w with
      | None => NotImplemented
      | Some (Raise e) => Returned (Raise e)
      | Some (Ok b) => Returned (Ok (VFloat (fadd a b)))
      end
  end.

Inductive binaryfunc : Type := slot_long_add | slot_float_add.

Definition binaryfunc_eqb (f g : binaryfunc) : bool :=
  match f, g with
  | slot_long_add, slot_long_add | slot_float_add, slot_float_add => true
  | _, _ => false
  end.

Definition call_slot (f : binaryfunc) : value -> value -> slot_result :=
  match f with
  | slot_long_add => long_add
  | slot_float_add => float_add
  end.

Definition nb_add (t : pytype) : option binaryfunc :=
  match t with
  | bool_type | int_type => Some slot_long_add
  | float_type => Some slot_float_add
  | _ => None
  end.

Definition try_slot (f : option binaryfunc) (v w : value)
    (otherwise : slot_result) : slot_result :=
  match f with
  | None => otherwise
  | Some g => match call_slot g v w with
              | NotImplemented => otherwise
              | r => r
              end
  end.

Definition binary_op1 (v w : value) : slot_result :=
  let slotv := nb_add (type_of v) in
  let slotw :=
    if pytype_eqb (type_of w) (type_of v) then None
    else match nb_add (type_of w), slotv with
         | Some g, Some f => if binaryfunc_eqb g f then None else Some g
         | s, _ => s
         end in
  match slotv with
  | Some f =>
      if match slotw with Some _ => is_subtype (type_of w) (type_of v)
                        | None => false end
      then try_slot slotw v w (try_slot slotv v w NotImplemented)
      else try_slot slotv v w (try_slot slotw v w NotImplemented)
  | None => try_slot slotw v w NotImplemented
  end.

Definition unicode_concat (v w : value) : result value :=
  match v, w with
  | VStr s, VStr t => Ok (VStr (s ++ t))
  | _, _ => Raise TypeError
  end.

Definition list_concat (v w : value) : result value :=
  match v, w with
  | VList l, VList m => Ok (VList (l ++ m)%list)
  | _, _ => Raise TypeError
  end.

Definition sq_concat (t : pytype) : option (value -> value -> result value) :=
  match t with
  | str_type => Some unicode_concat
  | list_type => Some list_concat
  | _ => None
  end.

Definition PyNumber_Add (v w : value) : result value :=
  match binary_op1 v w with
  | Returned r => r
  | NotImplemented =>
      match sq_concat (type_of v) with
      | Some concat => concat v w
      | None => Raise TypeError
      end
  end.

(** ** The operator [==]

    [None] where the answer depends on which list items are the same
    object, which these values do not record. *)

Definition py_eq (v w : value) : option bool :=
  match v, w with
  | VFloat x, VFloat y => Some (feqb x y)
  | VFloat x, _ =>
      match as_long w with Some z => Some (eqb_Z x z) | None => Some false end
  | _, VFloat y =>
      match as_long v with Some z => Some (eqb_Z y z) | None => Some false end
  | VStr s, VStr t => Some (String.eqb s t)
  | VNone, VNone => Some true
  | VList _, VList _ => None
  | _, _ =>
      match as_long v, as_long w with
      | Some a, Some b => Some (a =? b)
      | _, _ => Some false
      end
  end.

(** ** [str], [repr] and f-strings *)

Definition hex_digit (n : N) : ascii :=
  ascii_of_N (if (n <? 10)%N then 48 + n else 87 + n)%N.

Definition hex_escape (c : ascii) : string :=
  let n := N_of_ascii c in
  "\x" ++ String (hex_digit (n / 16)) (String (hex_digit (n mod 16)) "").

Definition quote1 : ascii := ascii_of_nat 39.
Definition quote2 : ascii := ascii_of_nat 34.
Definition backslash : ascii := ascii_of_nat 92.

Fixpoint contains (c : ascii) (s : string) : bool :=
  match s with
  | EmptyString => false
  | String d s' => Ascii.eqb c d || contains c s'
  end.

Definition escape_char (quote c : ascii) : string :=
  let n := N_of_ascii c in
  if Ascii.eqb c quote || Ascii.eqb c backslash
  then String backslash (String c "")
  else if (n =? 9)%N then "\t"
  else if (n =? 10)%N then "\n"
  else if (n =? 13)%N then "\r"
  else if (n <? 32)%N || (n =? 127)%N then hex_escape c
  else if (n <? 127)%N then String c ""
  else if (n <=? 160)%N || (n =? 173)%N then hex_escape c
  else String c "".

Fixpoint escape (quote : ascii) (s : string) : string :=
  match s with
  | EmptyString => ""
  | String c s' => escape_char quote c ++ escape quote s'
  end.

(** [repr] of a [str] whose code points are below 256. *)
Definition str_repr (s : string) : string :=
  let quote :=
    if contains quote1 s && negb (contains quote2 s) then quote2 else quote1 in
  String quote (escape quote s) ++ String quote "".

(** The limit on the number of digits of an [int] turned into decimal
    text, [sys.get_int_max_str_digits()], at its default. *)
Definition int_max_str_digits : Z := 4300.

(** [str] of an [int]: [ValueError] when the digits, the sign apart, are
    more than the limit. *)
Definition str_int (z : Z) : result string :=
  if int_max_str_digits <? ndigits (Z.abs z) then Raise ValueError
  else Ok (str_Z z).

(** The texts of the items of a list, in order, up to the first that
    raises. *)
Fixpoint sequence (rs : list (result string)) : result (list string) :=
  match rs with
  | [] => Ok []
  | Ok s :: rest =>
      match sequence rest with
      | Ok ss => Ok (s :: ss)
      | Raise e => Raise e
      end
  | Raise e :: _ => Raise e
  end.

Fixpoint py_repr (v : value) : result string :=
  match v with
  | VNone => Ok "None"
  | VBool b => Ok (if b then "True" else "False")
  | VInt z => str_int z
  | VFloat x => Ok (float_repr x)
  | VStr s => Ok (str_repr s)
  | VList items =>
      match sequence (map py_repr items) with
      | Ok ss => Ok ("[" ++ String.concat ", " ss ++ "]")
      | Raise e => Raise e
      end
  end.

Definition py_str (v : value) : result string :=
  match v with
  | VStr s => Ok s
  | _ => py_repr v
  end.

(** An f-string: literal text and replacement fields [{v}], each turned
    into text in its turn. *)
Inductive fpart : Type :=
| Lit (s : string)
| Field (v : value).

Definition fstring (parts : list fpart) : result string :=
  match sequence
          (map (fun p => match p with Lit s => Ok s | Field v => py_str v end)
               parts) with
  | Ok ss => Ok (String.concat "" ss)
  | Raise e => Raise e
  end.

(** ** The program *)

Open Scope py_scope.

(** [def add(a, b): return a + b] *)
Definition add (a b : value) : M value := lift (PyNumber_Add a b).

(** The body of [if __name__ == "__main__":], over whatever the name
    [add] is bound to when it runs. *)
Definition main_block (add : value -> value -> M value) : M unit :=
  let num1 := VInt 5 in
  let num2 := VInt 3 in
  result <- add num1 num2 ;;
  s1 <- lift (fstring [Field num1; Lit " + "; Field num2; Lit " = ";
                       Field result]) ;;
  print s1 ;;
  r2 <- add (VInt 10) (VInt 20) ;;
  s2 <- lift (fstring [Lit "10 + 20 = "; Field r2]) ;;
  print s2 ;;
  r3 <- add (VFloat (of_decimal 35 (-1))) (VFloat (of_decimal 25 (-1))) ;;
  s3 <- lift (fstring [Lit "3.5 + 2.5 = "; Field r3]) ;;
  print s3 ;;
  r4 <- add (VInt (-5)) (VInt 15) ;;
  s4 <- lift (fstring [Lit "-5 + 15 = "; Field r4]) ;;
  print s4.

(** Running the module with [__name__] bound to [name], [add] being
    bound to [f] by the time the [if] is reached. *)
Definition module_body (f : value -> value -> M value) (name : string) : M unit :=
  if String.eqb name "__main__" then main_block f else ret tt.

Definition calculator (name : string) : M unit := module_body add name.

(** A probe around a callee: log the argument pair, then call. *)
Definition traced (f : value -> value -> M value) (a b : value) : M value :=
  fun w => f a b {| stdout := stdout w; calls := (calls w ++ [(a, b)])%list |}.

Definition world0 : world := {| stdout := ""; calls := [] |}.

(** ** The vocabulary of the specification *)

(** An integer: an [int], or a [bool], which is an [int] in Python. *)
Definition is_integer (v : value) : bool :=
  match as_long v with Some _ => true | None => false end.

Definition is_float (v : value) : bool :=
  match v with VFloat _ => true | _ => false end.

(** A numeric value: an integer or a floating-point number. *)
Definition is_number (v : value) : bool := is_integer v || is_float v.

Definition is_nan_value (v : value) : bool :=
  match v with VFloat x => is_nan x | _ => false end.

(** Promotion to floating point with the standard rounding. *)
Definition promote (v : value) : option float :=
  match v with
  | VFloat x => Some x
  | _ => option_map of_Z (as_long v)
  end.

(** The sum as the specification words it: integer addition when both
    operands are integers, floating-point addition of the promoted
    operands when either is floating-point. *)
Definition numeric_sum (a b : value) : option value :=
  match as_long a, as_long b with
  | Some x, Some y => Some (VInt (x + y))
  | _, _ =>
      match promote a, promote b with
      | Some x, Some y => Some (VFloat (fadd x y))
      | _, _ => None
      end
  end.

(** An integer whose nearest double is finite. *)
Definition fits_double (z : Z) : bool := is_finite (of_Z z).

(** No integer operand met by a float is out of the range of doubles. *)
Definition promotable (a b : value) : bool :=
  match as_long a, as_long b with
  | Some z, None => if is_float b then fits_double z else true
  | None, Some z => if is_float a then fits_double z else true
  | _, _ => true
  end.

(** The operand pairs [+] is defined on: two numbers, two strings, two lists. *)
Definition supports_add (a b : value) : bool :=
  match a, b with
  | VStr _, VStr _ | VList _, VList _ => true
  | _, _ => is_number a && is_number b
  end.


(** The expression [add(a, b) == c]. *)
Definition add_equals (a b c : value) : M (option bool) :=
  r <- add a b ;; ret (py_eq r c).

(** The expression [add(a, b) == add(b, a)]. *)
Definition comm_test (a b : value) : M (option bool) :=
  x <- add a b ;; y <- add b a ;; ret (py_eq x y).

(** The expression [add(a, 0) == a]. *)
Definition identity_test (a : value) : M (option bool) :=
  add_equals a (VInt 0) a.

(** The claims of the specification that hold of every numeric input only
    in part, as predicates of the input. *)

Definition returns_numeric_sum (a b : value) (w : world) : Prop :=
  is_number a = true -> is_number b = true ->
  exists v, numeric_sum a b = Some v /\ add a b w = (Ok v, w).

Definition commutes (a b : value) (w : world) : Prop :=
  is_number a = true -> is_number b = true ->
  comm_test a b w = (Ok (Some true), w).

Definition zero_is_identity (a : value) (w : world) : Prop :=
  is_number a = true -> identity_test a w = (Ok (Some true), w).

Definition fails_on_non_numeric (a b : value) (w : world) : Prop :=
  is_number a = false \/ is_number b = false ->
  add a b w = (Raise TypeError, w).

(** The four argument pairs of the demonstration, and the line each gives. *)
Definition demo_pairs : list (value * value) :=
  [ (VInt 5, VInt 3); (VInt 10, VInt 20);
    (VFloat (of_decimal 35 (-1)), VFloat (of_decimal 25 (-1)));
    (VInt (-5), VInt 15) ].

Definition demo_line (p : value * value) : string :=
  match PyNumber_Add (fst p) (snd p) with
  | Ok r =>
      match py_str (fst p), py_str (snd p), py_str r with
      | Ok a, Ok b, Ok c => a ++ " + " ++ b ++ " = " ++ c
      | _, _, _ => ""
      end
  | Raise _ => ""
  end.

Definition demo_text : string :=
  String.concat "" (map (fun p => demo_line p ++ newline) demo_pairs).

(** ** Calls composed *)

(** The expressions [add(add(a, b), c)] and [add(a, add(b, c))]. *)
Definition add_left (a b c : value) : M value := x <- add a b ;; add x c.

Definition add_right (a b c : value) : M value := y <- add b c ;; add a y.

(** The text each [print] of the block puts before the result of its
    call, with the arguments of that call. *)
Definition demo_items : list (string * (value * value)) :=
  [ ("5 + 3 = ", (VInt 5, VInt 3));
    ("10 + 20 = ", (VInt 10, VInt 20));
    ("3.5 + 2.5 = ",
     (VFloat (of_decimal 35 (-1)), VFloat (of_decimal 25 (-1))));
    ("-5 + 15 = ", (VInt (-5), VInt 15)) ].

(** Going through the items in order: call, then print the line, and
    stop at the first call that raises. *)
Fixpoint print_until (g : value -> value -> result value)
    (items : list (string * (value * value))) (out : string)
    : result unit * string :=
  match items with
  | [] => (Ok tt, out)
  | (lhs, (a, b)) :: rest =>
      match g a b with
      | Ok r =>
          match py_str r with
          | Ok s => print_until g rest (out ++ (lhs ++ s) ++ newline)
          | Raise e => (Raise e, out)
          end
      | Raise e => (Raise e, out)
      end
  end.

(** A callee all of whose results on the argument pairs of the block are
    numbers. *)
Definition numeric_results (g : value -> value -> result value) : bool :=
  forallb (fun p => match g (fst p) (snd p) with
                    | Ok (VFloat x) => valid x
                    | Ok r => is_number r
                    | Raise _ => true
                    end) demo_pairs.

(** The expression [add(float(x), float(y)) == add(x, y)] on integers [x]
    and [y] that doubles hold exactly. *)
Definition float_int_test (x y : Z) : M (option bool) :=
  r <- add (VFloat (of_Z x)) (VFloat (of_Z y)) ;;
  s <- add (VInt x) (VInt y) ;;
  ret (py_eq r s).

(** A binding that raises on floats. *)
Definition add_no_floats (a b : value) : result value :=
  if is_float a then Raise TypeError else PyNumber_Add a b.

(** ** Objects with identity

    Whether a call modifies its arguments cannot be said of the values
    above, which have no identity.  Here a list is a reference to a
    mutable cell of a heap, and an instance of a user class is a
    reference that carries its class; a class is a direct subclass of
    [object] and may define [__add__] and [__radd__], arbitrary code. *)

Inductive object : Type :=
| ONone
| OBool (b : bool)
| OInt (z : Z)
| OFloat (x : float)
| OStr (s : string)
| OList (l : nat)
| OInst (cls : nat) (l : nat).

Inductive cell : Type :=
| CList (items : list object)
| CInst (attrs : list (string * object)).

Record store : Type := { output : string; heap : list cell }.

(** A method, called on [self] and the other operand: it may do anything
    to the store, and returns an object, [None] standing for
    [NotImplemented], or raises. *)
Definition method : Type :=
  object -> object -> store -> result (option object) * store.

Record class_def : Type :=
  { cls_add : option method; cls_radd : option method }.

Inductive otype : Type :=
| TNone | TBool | TInt | TFloat | TStr | TList | TClass (c : nat).

Definition otype_of (o : object) : otype :=
  match o with
  | ONone => TNone
  | OBool _ => TBool
  | OInt _ => TInt
  | OFloat _ => TFloat
  | OStr _ => TStr
  | OList _ => TList
  | OInst c _ => TClass c
  end.

Definition otype_eqb (t u : otype) : bool :=
  match t, u with
  | TNone, TNone | TBool, TBool | TInt, TInt | TFloat, TFloat
  | TStr, TStr | TList, TList => true
  | TClass c, TClass d => Nat.eqb c d
  | _, _ => false
  end.

Definition otype_subtype (t u : otype) : bool :=
  otype_eqb t u || match t, u with TBool, TInt => true | _, _ => false end.

Definition obj_long (o : object) : option Z :=
  match o with
  | OInt z => Some z
  | OBool b => Some (Z.b2z b)
  | _ => None
  end.

Definition obj_double (o : object) : option (result float) :=
  match o with
  | OFloat x => Some (Ok x)
  | _ => match obj_long o with
         | Some z => Some (PyLong_AsDouble z)
         | None => None
         end
  end.

Definition obj_long_add (v w : object) : result (option object) :=
  match obj_long v, obj_long w with
  | Some a, Some b => Ok (Some (OInt (a + b)))
  | _, _ => Ok None
  end.

Definition obj_float_add (v w : object) : result (option object) :=
  match obj_double v with
  | None => Ok None
  | Some (Raise e) => Raise e
  | Some (Ok a) =>
      match obj_double w with
      | None => Ok None
      | Some (Raise e) => Raise e
      | Some (Ok b) => Ok (Some (OFloat (fadd a b)))
      end
  end.

(** The items of the list at a location. *)
Definition items_of (st : store) (l : nat) : list object :=
  match nth_error (heap st) l with
  | Some (CList items) => items
  | _ => []
  end.

(** A new object in the first free location. *)
Definition alloc (c : cell) (st : store) : nat * store :=
  (List.length (heap st), {| output := output st; heap := heap st ++ [c] |}).

Inductive oslot : Type := nb_long_add | nb_float_add | nb_slot_add.

Definition oslot_eqb (f g : oslot) : bool :=
  match f, g with
  | nb_long_add, nb_long_add | nb_float_add, nb_float_add
  | nb_slot_add, nb_slot_add => true
  | _, _ => false
  end.

Section Classes.

Variable classes : nat -> class_def.

Definition defines_add (c : nat) : bool :=
  match cls_add (classes c), cls_radd (classes c) with
  | None, None => false
  | _, _ => true
  end.

Definition obj_nb_add (t : otype) : option oslot :=
  match t with
  | TBool | TInt => Some nb_long_add
  | TFloat => Some nb_float_add
  | TClass c => if defines_add c then Some nb_slot_add else None
  | _ => None
  end.

Definition has_slot_add (t : otype) : bool :=
  match obj_nb_add t with Some nb_slot_add => true | _ => false end.

Definition method_of (pick : class_def -> option method) (o : object)
    : option method :=
  match o with
  | OInst c _ => pick (classes c)
  | _ => None
  end.

(** Call a method if the class has it, else [NotImplemented]. *)
Definition call_maybe (m : option method) (self other : object) (st : store)
    : result (option object) * store :=
  match m with
  | Some f => f self other st
  | None => (Ok None, st)
  end.

(** The slot of a class that defines [__add__] or [__radd__]. *)
Definition slot_nb_add (self other : object) (st : store)
    : result (option object) * store :=
  let do_other :=
    negb (otype_eqb (otype_of self) (otype_of other))
    && has_slot_add (otype_of other) in
  if has_slot_add (otype_of self) then
    match call_maybe (method_of cls_add self) self other st with
    | (Ok None, st') =>
        if otype_eqb (otype_of self) (otype_of other) then (Ok None, st')
        else if do_other
             then call_maybe (method_of cls_radd other) other self st'
             else (Ok None, st')
    | r => r
    end
  else if do_other then call_maybe (method_of cls_radd other) other self st
  else (Ok None, st).

Definition obj_call_slot (f : oslot) (v w : object) (st : store)
    : result (option object) * store :=
  match f with
  | nb_long_add => (obj_long_add v w, st)
  | nb_float_add => (obj_float_add v w, st)
  | nb_slot_add => slot_nb_add v w st
  end.

Definition obj_try_slot (f : option oslot) (v w : object)
    (otherwise : store -> result (option object) * store) (st : store)
    : result (option object) * store :=
  match f with
  | None => otherwise st
  | Some g =>
      match obj_call_slot g v w st with
      | (Ok None, st') => otherwise st'
      | r => r
      end
  end.

Definition not_implemented (st : store) : result (option object) * store :=
  (Ok None, st).

Definition obj_binary_op1 (v w : object) (st : store)
    : result (option object) * store :=
  let slotv := obj_nb_add (otype_of v) in
  let slotw :=
    if otype_eqb (otype_of w) (otype_of v) then None
    else match obj_nb_add (otype_of w), slotv with
         | Some g, Some f => if oslot_eqb g f then None else Some g
         | s, _ => s
         end in
  match slotv with
  | Some f =>
      if match slotw with
         | Some _ => otype_subtype (otype_of w) (otype_of v)
         | None => false
         end
      then obj_try_slot slotw v w (obj_try_slot slotv v w not_implemented) st
      else obj_try_slot slotv v w (obj_try_slot slotw v w not_implemented) st
  | None => obj_try_slot slotw v w not_implemented st
  end.

Definition obj_concat (v w : object) (st : store) : result object * store :=
  match v, w with
  | OStr s, OStr t => (Ok (OStr (s ++ t)), st)
  | OList l, OList m =>
      let '(n, st') := alloc (CList (items_of st l ++ items_of st m)%list) st in
      (Ok (OList n), st')
  | _, _ => (Raise TypeError, st)
  end.

Definition obj_PyNumber_Add (v w : object) (st : store)
    : result object * store :=
  match obj_binary_op1 v w st with
  | (Ok (Some r), st') => (Ok r, st')
  | (Raise e, st') => (Raise e, st')
  | (Ok None, st') =>
      match otype_of v with
      | TStr | TList => obj_concat v w st'
      | _ => (Raise TypeError, st')
      end
  end.

(** [def add(a, b): return a + b], on objects. *)
Definition add_obj (a b : object) (st : store) : result object * store :=
  obj_PyNumber_Add a b st.

End Classes.

(** [st'] keeps [st]: the same output, and every object of [st] as it
    was; new objects apart, nothing has changed. *)
Definition keeps (st st' : store) : Prop :=
  output st' = output st
  /\ forall l c, nth_error (heap st) l = Some c -> nth_error (heap st') l = Some c.

(** A call without side effects: it writes nothing and leaves every
    object there was, its arguments among them, as it found it. *)
Definition effect_free (classes : nat -> class_def) (a b : object)
    (st : store) : Prop :=
  keeps st (snd (add_obj classes a b st)).

Definition method_keeps (m : option method) : Prop :=
  match m with
  | Some f => forall self other st, keeps st (snd (f self other st))
  | None => True
  end.

(** The methods [+] may call on an operand have no side effects; of an
    object of a built-in type there are none to call. *)
Definition operand_keeps (classes : nat -> class_def) (o : object) : Prop :=
  match o with
  | OInst c _ =>
      method_keeps (cls_add (classes c)) /\ method_keeps (cls_radd (classes c))
  | _ => True
  end.

Definition builtin (o : object) : bool :=
  match o with OInst _ _ => false | _ => true end.

(** The objects without identity, as values. *)
Definition scalar_obj (v : value) : option object :=
  match v with
  | VNone => Some ONone
  | VBool b => Some (OBool b)
  | VInt z => Some (OInt z)
  | VFloat x => Some (OFloat x)
  | VStr s => Some (OStr s)
  | VList _ => None
  end.

Fixpoint set_cell (l : nat) (c : cell) (h : list cell) : list cell :=
  match h, l with
  | [], _ => []
  | _ :: rest, O => c :: rest
  | d :: rest, S l' => d :: set_cell l' c rest
  end.

(** A class whose [__add__] prints, appends [self] to the other operand
    when that is a list, and returns 0:
    <<
    class Noisy:
        def __add__(self, other):
            print("adding")
            other.append(self)
            return 0
    >> *)
Definition noisy_add : method :=
  fun self other st =>
    (Ok (Some (OInt 0)),
     {| output := output st ++ "adding" ++ newline;
        heap := match other with
                | OList l =>
                    set_cell l (CList (items_of st l ++ [self])%list) (heap st)
                | _ => heap st
                end |}).

Definition noisy_classes (c : nat) : class_def :=
  match c with
  | O => {| cls_add := Some noisy_add; cls_radd := None |}
  | _ => {| cls_add := None; cls_radd := None |}
  end.

(** An instance of [Noisy] and an empty list. *)
Definition noisy_store : store :=
  {| output := ""; heap := [CInst []; CList []] |}.

(** * Properties *)

(** ** The model on known inputs *)

Example str_Z_samples :
  str_Z 0 = "0" /\ str_Z (-5) = "-5" /\ str_Z (2 ^ 64) = "18446744073709551616".
Proof. repeat split; reflexivity. Qed.

Example literal_samples :
  of_decimal 35 (-1) = S754_finite false 7881299347898368 (-51)
  /\ of_decimal 25 (-1) = S754_finite false 5629499534213120 (-51)
  /\ of_decimal 1 (-1) = S754_finite false 7205759403792794 (-56)
  /\ valid (of_decimal 35 (-1)) = true.
Proof. repeat split; vm_compute; reflexivity. Qed.

Example float_repr_samples :
  float_repr (of_decimal 35 (-1)) = "3.5"
  /\ float_repr (of_decimal 60 (-1)) = "6.0"
  /\ float_repr (fadd (of_decimal 1 (-1)) (of_decimal 2 (-1)))
     = "0.30000000000000004"
  /\ float_repr (of_decimal 1 16) = "1e+16"
  /\ float_repr (of_decimal 1 23) = "1e+23"
  /\ float_repr (of_decimal 1 (-5)) = "1e-05"
  /\ float_repr (of_decimal 5 (-324)) = "5e-324"
  /\ float_repr (of_Z (2 ^ 53)) = "9007199254740992.0"
  /\ float_repr (S754_zero true) = "-0.0".
Proof. repeat split; vm_compute; reflexivity. Qed.

Example fits_double_samples :
  fits_double (2 ^ 1024 - 2 ^ 970 - 1) = true
  /\ fits_double (2 ^ 1024 - 2 ^ 970) = false
  /\ fits_double (- 2 ^ 1024) = false.
Proof. repeat split; vm_compute; reflexivity. Qed.

Example py_str_samples :
  py_str (VList [VInt 1; VStr "a"; VFloat (of_decimal 25 (-1)); VNone])
  = Ok "[1, 'a', 2.5, None]"
  /\ py_str (VStr "a") = Ok "a" /\ py_str (VBool true) = Ok "True".
Proof. repeat split; vm_compute; reflexivity. Qed.

(** Past the limit on digits the conversion of an [int] raises, alone,
    in a list and in an f-string; up to it, it gives the decimal text. *)
Lemma str_int_limit (z : Z) :
  (ndigits (Z.abs z) <= int_max_str_digits ->
   py_str (VInt z) = Ok (str_Z z))
  /\ (int_max_str_digits < ndigits (Z.abs z) ->
      py_str (VInt z) = Raise ValueError
      /\ py_str (VList [VInt 1; VInt z]) = Raise ValueError
      /\ fstring [Lit "x = "; Field (VInt z)] = Raise ValueError).
Proof.
  unfold fstring, py_str, py_repr, str_int. cbn [map sequence].
  split; intros H.
  - apply Z.ltb_ge in H. now rewrite H.
  - apply Z.ltb_lt in H. rewrite H. repeat split.
Qed.

Example PyNumber_Add_samples :
  PyNumber_Add (VBool true) (VBool true) = Ok (VInt 2)
  /\ PyNumber_Add (VInt 1) (VFloat (of_decimal 25 (-1)))
     = Ok (VFloat (of_decimal 35 (-1)))
  /\ PyNumber_Add (VStr "a") (VInt 1) = Raise TypeError
  /\ PyNumber_Add (VInt 1) (VStr "a") = Raise TypeError
  /\ PyNumber_Add VNone VNone = Raise TypeError
  /\ PyNumber_Add (VList [VInt 1]) (VList [VStr "a"])
     = Ok (VList [VInt 1; VStr "a"])
  /\ PyNumber_Add (VFloat (of_decimal 10 (-1))) (VInt (10 ^ 400))
     = Raise OverflowError.
Proof. repeat split; vm_compute; reflexivity. Qed.

(** ** Strings and the state monad *)

Lemma append_assoc (s t u : string) : (s ++ t) ++ u = s ++ (t ++ u).
Proof. induction s as [|c s IH]; simpl; [reflexivity | now rewrite IH]. Qed.

Lemma bind_lift {A B : Type} (r : result A) (k : A -> M B) (w : world) :
  bind (lift r) k w = match r with Ok a => k a w | Raise e => (Raise e, w) end.
Proof. unfold bind, lift. destruct r; reflexivity. Qed.

Lemma add_run (a b : value) (w : world) : add a b w = (PyNumber_Add a b, w).
Proof. reflexivity. Qed.

(** ** Floating-point addition and comparison *)

Lemma fadd_comm (x y : float) : fadd x y = fadd y x.
Proof.
  unfold fadd, SFadd.
  destruct x as [sx|sx| |sx mx ex], y as [sy|sy| |sy my ey];
    try reflexivity; try (destruct sx, sy; reflexivity).
  rewrite (Z.min_comm ex ey). f_equal. apply Z.add_comm.
Qed.

Lemma feqb_refl (x : float) : is_nan x = false -> feqb x x = true.
Proof.
  unfold feqb, SFeqb.
  destruct x as [s|s| |s m e]; simpl; intros H;
    try discriminate; try (destruct s; reflexivity).
  destruct s; rewrite Z.compare_refl, Pos.compare_cont_refl; reflexivity.
Qed.

Lemma fadd_zero_r (x : float) :
  is_nan x = false -> feqb (fadd x (S754_zero false)) x = true.
Proof.
  destruct x as [s|s| |s m e]; intros H; try discriminate.
  - destruct s; reflexivity.
  - destruct s; reflexivity.
  - change (fadd (S754_finite s m e) (S754_zero false))
      with (S754_finite s m e).
    now apply feqb_refl.
Qed.

(** ** [+] by cases *)

Lemma PyNumber_Add_long (a b : value) (x y : Z) :
  as_long a = Some x -> as_long b = Some y ->
  PyNumber_Add a b = Ok (VInt (x + y)).
Proof.
  destruct a, b; simpl; intros Ha Hb; try discriminate;
    injection Ha as <-; injection Hb as <-; reflexivity.
Qed.

Lemma PyNumber_Add_float (x y : float) :
  PyNumber_Add (VFloat x) (VFloat y) = Ok (VFloat (fadd x y)).
Proof. reflexivity. Qed.

Lemma PyNumber_Add_long_float (a : value) (z : Z) (y : float) :
  as_long a = Some z ->
  PyNumber_Add a (VFloat y)
  = if fits_double z then Ok (VFloat (fadd (of_Z z) y)) else Raise OverflowError.
Proof.
  unfold fits_double.
  destruct a; simpl; intros Ha; try discriminate; injection Ha as <-;
    unfold PyNumber_Add, binary_op1, try_slot, call_slot, long_add, float_add,
      convert_to_double, PyLong_AsDouble; simpl;
    match goal with |- context [is_finite ?t] => destruct (is_finite t) end;
    reflexivity.
Qed.

Lemma PyNumber_Add_float_long (x : float) (b : value) (z : Z) :
  as_long b = Some z ->
  PyNumber_Add (VFloat x) b
  = if fits_double z then Ok (VFloat (fadd x (of_Z z))) else Raise OverflowError.
Proof.
  unfold fits_double.
  destruct b; simpl; intros Hb; try discriminate; injection Hb as <-;
    unfold PyNumber_Add, binary_op1, try_slot, call_slot, long_add, float_add,
      convert_to_double, PyLong_AsDouble; simpl;
    match goal with |- context [is_finite ?t] => destruct (is_finite t) end;
    reflexivity.
Qed.

Lemma PyNumber_Add_unsupported (a b : value) :
  supports_add a b = false -> PyNumber_Add a b = Raise TypeError.
Proof. destruct a, b; simpl; intros H; try discriminate; reflexivity. Qed.

(** A number is an integer or a float, and not both. *)
Lemma number_cases (v : value) :
  is_number v = true ->
  (exists z, as_long v = Some z) \/ (exists x, v = VFloat x).
Proof.
  destruct v; simpl; intros H; try discriminate; eauto.
Qed.

Lemma PyNumber_Add_comm (a b : value) :
  is_number a = true -> is_number b = true ->
  PyNumber_Add a b = PyNumber_Add b a.
Proof.
  intros Ha Hb.
  destruct (number_cases a Ha) as [[x Hx]|[x ->]],
           (number_cases b Hb) as [[y Hy]|[y ->]].
  - rewrite (PyNumber_Add_long a b Hx Hy), (PyNumber_Add_long b a Hy Hx).
    now rewrite Z.add_comm.
  - rewrite (PyNumber_Add_long_float a y Hx), (PyNumber_Add_float_long y a Hx).
    now rewrite fadd_comm.
  - rewrite (PyNumber_Add_long_float b x Hy), (PyNumber_Add_float_long x b Hy).
    now rewrite fadd_comm.
  - rewrite !PyNumber_Add_float. now rewrite fadd_comm.
Qed.

(** [==] holds between a number and itself, NaN apart. *)
Lemma py_eq_refl (v : value) :
  is_number v = true -> is_nan_value v = false -> py_eq v v = Some true.
Proof.
  destruct v; simpl; intros Hn Hnan; try discriminate.
  - now rewrite Z.eqb_refl.
  - now rewrite Z.eqb_refl.
  - now rewrite feqb_refl.
Qed.

Lemma PyNumber_Add_number (a b v : value) :
  is_number a = true -> is_number b = true ->
  PyNumber_Add a b = Ok v -> is_number v = true.
Proof.
  intros Ha Hb.
  destruct (number_cases a Ha) as [[x Hx]|[x ->]],
           (number_cases b Hb) as [[y Hy]|[y ->]].
  - rewrite (PyNumber_Add_long a b Hx Hy). now intros [= <-].
  - rewrite (PyNumber_Add_long_float a y Hx).
    destruct (fits_double x); [now intros [= <-] | discriminate].
  - rewrite (PyNumber_Add_float_long x b Hy).
    destruct (fits_double y); [now intros [= <-] | discriminate].
  - rewrite PyNumber_Add_float. now intros [= <-].
Qed.

(** The outcome of [+] on two numbers. *)
Lemma PyNumber_Add_numbers (a b : value) :
  is_number a = true -> is_number b = true ->
  if promotable a b
  then exists v, numeric_sum a b = Some v /\ PyNumber_Add a b = Ok v
  else PyNumber_Add a b = Raise OverflowError.
Proof.
  intros Ha Hb.
  destruct (number_cases a Ha) as [[x Hx]|[x ->]],
           (number_cases b Hb) as [[y Hy]|[y ->]].
  - unfold promotable, numeric_sum. rewrite Hx, Hy.
    exists (VInt (x + y)). now rewrite (PyNumber_Add_long a b Hx Hy).
  - rewrite (PyNumber_Add_long_float a y Hx).
    unfold promotable, numeric_sum, promote. rewrite Hx. simpl.
    destruct (fits_double x); [|reflexivity].
    exists (VFloat (fadd (of_Z x) y)). split; [|reflexivity].
    destruct a; simpl in Hx; try discriminate; reflexivity.
  - rewrite (PyNumber_Add_float_long x b Hy).
    unfold promotable, numeric_sum, promote. rewrite Hy. simpl.
    destruct (fits_double y); [|reflexivity].
    exists (VFloat (fadd x (of_Z y))). split; [|reflexivity].
    destruct b; simpl in Hy; try discriminate; reflexivity.
  - rewrite PyNumber_Add_float. simpl.
    exists (VFloat (fadd x y)). split; reflexivity.
Qed.

(** ** The Adder on numbers *)

(** C1, as stated, fails: an integer beyond the range of doubles added to
    a float does not return a sum, it raises [OverflowError]. *)
Lemma huge_int_plus_float_raises :
  ~ returns_numeric_sum (VInt (2 ^ 1024)) (VFloat (of_decimal 10 (-1))) world0.
Proof.
  intros H. destruct H as [v [_ Hv]]; try reflexivity.
  rewrite add_run in Hv.
  assert (E : PyNumber_Add (VInt (2 ^ 1024)) (VFloat (of_decimal 10 (-1)))
              = Raise OverflowError) by (vm_compute; reflexivity).
  rewrite E in Hv. discriminate.
Qed.

(** C1, amended: for all inputs [a] and [b] that are each an integer or a
    float, [add a b] returns the numeric sum (integer addition when both
    are integers, otherwise floating-point addition of the operands
    promoted with the standard rounding), provided no integer operand met
    by a float lies beyond the range of doubles; when one does, the call
    raises [OverflowError]. *)
Theorem add_numeric_sum (a b : value) (w : world) :
  is_number a = true -> is_number b = true ->
  if promotable a b
  then exists v, numeric_sum a b = Some v /\ add a b w = (Ok v, w)
  else add a b w = (Raise OverflowError, w).
Proof.
  intros Ha Hb. pose proof (PyNumber_Add_numbers a b Ha Hb) as H.
  rewrite add_run. destruct (promotable a b).
  - destruct H as [v [Hs Hv]]. exists v. now rewrite Hv.
  - now rewrite H.
Qed.

Lemma add_numeric_sum_witness :
  is_number (VInt 1) = true
  /\ is_number (VFloat (of_decimal 25 (-1))) = true
  /\ exists v, numeric_sum (VInt 1) (VFloat (of_decimal 25 (-1))) = Some v
               /\ add (VInt 1) (VFloat (of_decimal 25 (-1))) world0
                  = (Ok v, world0).
Proof.
  split; [reflexivity|]. split; [reflexivity|].
  exact (add_numeric_sum (VInt 1) (VFloat (of_decimal 25 (-1))) world0
           eq_refl eq_refl).
Defined.

(** C2: the four fixed evaluations: [add(5, 3) == 8], [add(10, 20) == 30],
    [add(3.5, 2.5) == 6.0] and [add(-5, 15) == 10], each call returning
    exactly that value. *)
Theorem add_fixed_evaluations (w : world) :
  (add (VInt 5) (VInt 3) w = (Ok (VInt 8), w)
   /\ add_equals (VInt 5) (VInt 3) (VInt 8) w = (Ok (Some true), w))
  /\ (add (VInt 10) (VInt 20) w = (Ok (VInt 30), w)
      /\ add_equals (VInt 10) (VInt 20) (VInt 30) w = (Ok (Some true), w))
  /\ (add (VFloat (of_decimal 35 (-1))) (VFloat (of_decimal 25 (-1))) w
      = (Ok (VFloat (of_decimal 60 (-1))), w)
      /\ add_equals (VFloat (of_decimal 35 (-1))) (VFloat (of_decimal 25 (-1)))
           (VFloat (of_decimal 60 (-1))) w = (Ok (Some true), w))
  /\ (add (VInt (-5)) (VInt 15) w = (Ok (VInt 10), w)
      /\ add_equals (VInt (-5)) (VInt 15) (VInt 10) w = (Ok (Some true), w)).
Proof.
  unfold add_equals, add. rewrite !bind_lift.
  assert (E : PyNumber_Add (VFloat (of_decimal 35 (-1)))
                (VFloat (of_decimal 25 (-1)))
              = Ok (VFloat (of_decimal 60 (-1)))) by (vm_compute; reflexivity).
  unfold lift. rewrite E.
  repeat split.
Qed.

(** C3, as stated, fails: the two infinities are numbers, their sum is NaN
    in either order, and NaN is not [==] to itself. *)
Lemma opposite_infinities_do_not_commute :
  ~ commutes (VFloat (S754_infinity false)) (VFloat (S754_infinity true)) world0.
Proof.
  intros H. specialize (H eq_refl eq_refl).
  vm_compute in H. discriminate.
Qed.

(** C3, amended: for every pair of numbers, [add a b] and [add b a] have
    the same outcome, the same value or the same error, and
    [add(a, b) == add(b, a)] is [True] whenever that value is not NaN;
    when it is NaN the comparison is [False], and an error of the call is
    the error of the comparison. *)
Theorem add_comm_numeric (a b : value) (w : world) :
  is_number a = true -> is_number b = true ->
  add a b w = add b a w
  /\ comm_test a b w
     = match PyNumber_Add a b with
       | Ok v => (Ok (Some (negb (is_nan_value v))), w)
       | Raise e => (Raise e, w)
       end.
Proof.
  intros Ha Hb. rewrite !add_run.
  pose proof (PyNumber_Add_comm a b Ha Hb) as Hc.
  split; [now rewrite Hc|].
  unfold comm_test, add. rewrite bind_lift.
  destruct (PyNumber_Add a b) as [v|e] eqn:E; [|reflexivity].
  rewrite bind_lift, <- Hc. unfold ret.
  pose proof (PyNumber_Add_number a b Ha Hb E) as Hv.
  destruct (is_nan_value v) eqn:Hnan.
  - destruct v as [| | |x| |]; simpl in Hnan; try discriminate.
    destruct x; try discriminate. reflexivity.
  - now rewrite (py_eq_refl v Hv Hnan).
Qed.

Lemma add_comm_numeric_witness :
  is_number (VInt 7) = true
  /\ is_number (VFloat (of_decimal 25 (-1))) = true
  /\ comm_test (VInt 7) (VFloat (of_decimal 25 (-1))) world0
     = (Ok (Some true), world0).
Proof.
  split; [reflexivity|]. split; [reflexivity|].
  exact (proj2 (add_comm_numeric (VInt 7) (VFloat (of_decimal 25 (-1))) world0
                  eq_refl eq_refl)).
Defined.

(** C4, as stated, fails: NaN is a number, [add(nan, 0)] is NaN, and NaN
    is not [==] to itself. *)
Lemma nan_plus_zero_is_not_nan :
  ~ zero_is_identity (VFloat S754_nan) world0.
Proof.
  intros H. specialize (H eq_refl). vm_compute in H. discriminate.
Qed.

(** C4, amended: for every number [a] other than NaN, [add(a, 0) == a]. *)
Theorem add_zero_identity (a : value) (w : world) :
  is_number a = true -> is_nan_value a = false ->
  identity_test a w = (Ok (Some true), w).
Proof.
  intros Ha Hnan. unfold identity_test, add_equals, add.
  rewrite bind_lift.
  destruct (number_cases a Ha) as [[x Hx]|[x ->]].
  - rewrite (PyNumber_Add_long a (VInt 0) Hx eq_refl), Z.add_0_r.
    unfold ret. f_equal. f_equal.
    destruct a; simpl in Hx; try discriminate; injection Hx as <-; simpl;
      now rewrite Z.eqb_refl.
  - rewrite (PyNumber_Add_float_long x (VInt 0) eq_refl).
    change (fits_double 0) with true. change (of_Z 0) with (S754_zero false).
    unfold ret. simpl. now rewrite (fadd_zero_r x Hnan).
Qed.

Lemma add_zero_identity_witness :
  is_number (VFloat (S754_zero true)) = true
  /\ is_nan_value (VFloat (S754_zero true)) = false
  /\ identity_test (VFloat (S754_zero true)) world0 = (Ok (Some true), world0).
Proof.
  split; [reflexivity|]. split; [reflexivity|].
  exact (add_zero_identity (VFloat (S754_zero true)) world0 eq_refl eq_refl).
Defined.

(** ** Failure of the Adder *)

(** C5, as stated, fails: two text strings are non-numeric operands, and
    the call returns their concatenation. *)
Lemma strings_do_not_fail :
  ~ fails_on_non_numeric (VStr "ab") (VStr "cd") world0.
Proof.
  intros H. specialize (H (or_introl eq_refl)).
  vm_compute in H. discriminate.
Qed.

(** A text string and a number, in either order, raise [TypeError]. *)
Lemma add_str_number_raises (s : string) (n : value) (w : world) :
  is_number n = true ->
  add (VStr s) n w = (Raise TypeError, w)
  /\ add n (VStr s) w = (Raise TypeError, w).
Proof.
  intros Hn. rewrite !add_run.
  split; f_equal; apply PyNumber_Add_unsupported;
    destruct n; simpl in *; try discriminate; reflexivity.
Qed.

(** C5, amended: the call raises [TypeError], without coercing, exactly
    when the operand pair does not support addition, which on these objects
    is every pair other than two numbers, two strings or two lists (so a
    text string with a number fails, two text strings do not); the one
    other failure is [OverflowError], when an integer beyond the range of
    doubles meets a float; every other call returns.  The error is not
    handled: whatever the caller does with the result is skipped and the
    caller fails with the same error. *)
Theorem add_failure_conditions (a b : value) (w : world) :
  (if negb (supports_add a b) then add a b w = (Raise TypeError, w)
   else if negb (promotable a b) then add a b w = (Raise OverflowError, w)
   else exists v, add a b w = (Ok v, w))
  /\ forall (B : Type) (k : value -> M B),
       bind (add a b) k w
       = match PyNumber_Add a b with
         | Ok v => k v w
         | Raise e => (Raise e, w)
         end.
Proof.
  split; [|intros B k; apply bind_lift].
  rewrite add_run.
  destruct (supports_add a b) eqn:Hs; simpl.
  - destruct (is_number a && is_number b) eqn:Hn.
    + apply andb_true_iff in Hn as [Ha Hb].
      pose proof (PyNumber_Add_numbers a b Ha Hb) as H.
      destruct (promotable a b); simpl.
      * destruct H as [v [_ Hv]]. exists v. now rewrite Hv.
      * now rewrite H.
    + destruct a, b; simpl in *; try discriminate; eexists; reflexivity.
  - now rewrite (PyNumber_Add_unsupported a b Hs).
Qed.



(** ** Integers of any size *)

(** C9: on integers of any magnitude the Adder returns the exact sum in
    the unbounded integers. *)
Theorem add_int_exact (x y : Z) (w : world) :
  add (VInt x) (VInt y) w = (Ok (VInt (x + y)), w).
Proof. reflexivity. Qed.

Example add_int_beyond_machine_words :
  add (VInt (2 ^ 64 - 1)) (VInt 1) world0 = (Ok (VInt (2 ^ 64)), world0)
  /\ add (VInt (10 ^ 400)) (VInt (- 10 ^ 400 + 1)) world0
     = (Ok (VInt 1), world0).
Proof. split; vm_compute; reflexivity. Qed.

(** ** The demonstration block *)

Lemma demo_text_lines :
  demo_text
  = "5 + 3 = 8" ++ newline ++ "10 + 20 = 30" ++ newline
    ++ "3.5 + 2.5 = 6.0" ++ newline ++ "-5 + 15 = 10" ++ newline.
Proof. vm_compute. reflexivity. Qed.

Lemma print_run (s : string) (w : world) :
  print s w
  = (Ok tt, {| stdout := stdout w ++ s ++ newline; calls := calls w |}).
Proof. reflexivity. Qed.

(** The block run with [add] itself, and run with the probe around it. *)
Lemma main_block_add (out : string) (cs : list (value * value)) :
  main_block add {| stdout := out; calls := cs |}
  = (Ok tt, {| stdout := out ++ demo_text; calls := cs |}).
Proof.
  rewrite demo_text_lines.
  cbv - [String.append]. fold String.append.
  rewrite !append_assoc. reflexivity.
Qed.

Lemma main_block_traced (out : string) (cs : list (value * value)) :
  main_block (traced add) {| stdout := out; calls := cs |}
  = (Ok tt, {| stdout := out ++ demo_text; calls := (cs ++ demo_pairs)%list |}).
Proof.
  rewrite demo_text_lines.
  cbv - [String.append List.app]. fold String.append.
  rewrite !append_assoc.
  repeat rewrite <- app_assoc. reflexivity.
Qed.

(** C6: executed directly, the module calls the Adder with exactly the
    pairs (5, 3), (10, 20), (3.5, 2.5), (-5, 15), in that order, and adds
    to standard output exactly four lines, one per call, each
    [<a> + <b> = <result>] in the default text of the three values. *)
Theorem main_block_output (w : world) :
  calculator "__main__" w
  = (Ok tt, {| stdout := stdout w ++ demo_text; calls := calls w |})
  /\ module_body (traced add) "__main__" w
     = (Ok tt, {| stdout := stdout w ++ demo_text;
                  calls := (calls w ++ demo_pairs)%list |})
  /\ demo_text
     = "5 + 3 = 8" ++ newline ++ "10 + 20 = 30" ++ newline
       ++ "3.5 + 2.5 = 6.0" ++ newline ++ "-5 + 15 = 10" ++ newline
  /\ map demo_line demo_pairs
     = ["5 + 3 = 8"; "10 + 20 = 30"; "3.5 + 2.5 = 6.0"; "-5 + 15 = 10"].
Proof.
  destruct w as [out cs].
  split; [apply main_block_add|].
  split; [apply main_block_traced|].
  split; [apply demo_text_lines|].
  vm_compute. reflexivity.
Qed.

(** C7: the demonstration runs only under the name [__main__]: imported
    under any other name the module makes none of the calls, under the
    probe too, and writes nothing; the state is left as it was. *)
Theorem import_runs_nothing (name : string) (w : world) :
  name <> "__main__" ->
  calculator name w = (Ok tt, w)
  /\ forall f : value -> value -> M value, module_body f name w = (Ok tt, w).
Proof.
  intros Hname. apply String.eqb_neq in Hname.
  unfold calculator, module_body. rewrite Hname. split; reflexivity.
Qed.

Lemma import_runs_nothing_witness :
  "calculator" <> "__main__"
  /\ calculator "calculator" world0 = (Ok tt, world0)
  /\ module_body (traced add) "calculator" world0 = (Ok tt, world0).
Proof.
  assert (Hname : "calculator" <> "__main__") by discriminate.
  split; [exact Hname|].
  destruct (import_runs_nothing world0 Hname) as [Hc Hf].
  split; [exact Hc | exact (Hf (traced add))].
Defined.

(** * Further properties of [add] and of the block *)

(** ** Strings as lists of characters *)

Lemma append_nil_r (s : string) : s ++ "" = s.
Proof. induction s as [|c s IH]; simpl; [reflexivity | now rewrite IH]. Qed.




Lemma PyNumber_Add_str (s t : string) :
  PyNumber_Add (VStr s) (VStr t) = Ok (VStr (s ++ t)).
Proof. reflexivity. Qed.

Lemma PyNumber_Add_list (l m : list value) :
  PyNumber_Add (VList l) (VList m) = Ok (VList (l ++ m)%list).
Proof. reflexivity. Qed.

(** ** Association *)

(** X1: on integers (bools among them) the two ways of adding three
    operands through [add] return the same, exact, sum. *)
Theorem add_assoc_int (a b c : value) (x y z : Z) (w : world) :
  as_long a = Some x -> as_long b = Some y -> as_long c = Some z ->
  add_left a b c w = (Ok (VInt (x + y + z)), w)
  /\ add_right a b c w = (Ok (VInt (x + y + z)), w).
Proof.
  intros Ha Hb Hc. unfold add_left, add_right, add.
  rewrite !bind_lift.
  rewrite (PyNumber_Add_long a b Ha Hb), (PyNumber_Add_long b c Hb Hc).
  unfold lift.
  rewrite (PyNumber_Add_long (VInt (x + y)) c eq_refl Hc).
  rewrite (PyNumber_Add_long a (VInt (y + z)) Ha eq_refl).
  now rewrite Z.add_assoc.
Qed.

Lemma add_assoc_int_witness :
  as_long (VBool true) = Some 1
  /\ as_long (VInt (2 ^ 70)) = Some (2 ^ 70)
  /\ as_long (VInt (-3)) = Some (-3)
  /\ add_left (VBool true) (VInt (2 ^ 70)) (VInt (-3)) world0
     = (Ok (VInt (1 + 2 ^ 70 + -3)), world0)
  /\ add_right (VBool true) (VInt (2 ^ 70)) (VInt (-3)) world0
     = (Ok (VInt (1 + 2 ^ 70 + -3)), world0).
Proof.
  split; [reflexivity|]. split; [reflexivity|]. split; [reflexivity|].
  exact (add_assoc_int (VBool true) (VInt (2 ^ 70)) (VInt (-3)) world0
           eq_refl eq_refl eq_refl).
Defined.

(** Floats do not associate: [(0.1 + 0.2) + 0.3] and [0.1 + (0.2 + 0.3)]
    differ; and with an integer out of the range of doubles one
    association returns where the other raises. *)
Example add_assoc_fails_on_floats :
  add_left (VFloat (of_decimal 1 (-1))) (VFloat (of_decimal 2 (-1)))
    (VFloat (of_decimal 3 (-1))) world0
  <> add_right (VFloat (of_decimal 1 (-1))) (VFloat (of_decimal 2 (-1)))
       (VFloat (of_decimal 3 (-1))) world0
  /\ add_left (VInt (2 ^ 1024)) (VInt (- 2 ^ 1024)) (VFloat (of_decimal 10 (-1)))
       world0 = (Ok (VFloat (of_decimal 10 (-1))), world0)
  /\ add_right (VInt (2 ^ 1024)) (VInt (- 2 ^ 1024))
       (VFloat (of_decimal 10 (-1))) world0 = (Raise OverflowError, world0).
Proof.
  split; [vm_compute; discriminate|]. split; vm_compute; reflexivity.
Qed.

(** X2: on three strings, and on three lists, the two ways of adding
    them through [add] return the same concatenation. *)
Theorem add_assoc_concat (s t u : string) (l m n : list value) (w : world) :
  (add_left (VStr s) (VStr t) (VStr u) w = (Ok (VStr (s ++ t ++ u)), w)
   /\ add_right (VStr s) (VStr t) (VStr u) w = (Ok (VStr (s ++ t ++ u)), w))
  /\ (add_left (VList l) (VList m) (VList n) w
      = (Ok (VList (l ++ m ++ n)%list), w)
      /\ add_right (VList l) (VList m) (VList n) w
         = (Ok (VList (l ++ m ++ n)%list), w)).
Proof.
  unfold add_left, add_right, add. rewrite !bind_lift.
  repeat (rewrite ?PyNumber_Add_str, ?PyNumber_Add_list; cbv beta iota;
          unfold lift).
  rewrite append_assoc, <- app_assoc. repeat split.
Qed.

(** ** Identities *)

(** X3: the empty string and the empty list are identities of [add] on
    either side: the call returns the other operand as it is. *)
Theorem add_empty_identity (s : string) (l : list value) (w : world) :
  add (VStr s) (VStr "") w = (Ok (VStr s), w)
  /\ add (VStr "") (VStr s) w = (Ok (VStr s), w)
  /\ add (VList l) (VList []) w = (Ok (VList l), w)
  /\ add (VList []) (VList l) w = (Ok (VList l), w).
Proof.
  rewrite !add_run, !PyNumber_Add_str, !PyNumber_Add_list.
  simpl. rewrite append_nil_r, app_nil_r. repeat split.
Qed.

Lemma fadd_pos_zero_r (x : float) :
  x <> S754_zero true -> fadd x (S754_zero false) = x.
Proof.
  destruct x as [s|s| |s m e]; intros H; try reflexivity.
  destruct s; [now elim H | reflexivity].
Qed.

(** X4: adding the integer 0, on either side, to an [int] or to a [float]
    other than the negative zero returns that very value, NaN and the
    infinities included. *)
Theorem add_zero_exact (a : value) (w : world) :
  type_of a = int_type \/ type_of a = float_type ->
  a <> VFloat (S754_zero true) ->
  add a (VInt 0) w = (Ok a, w) /\ add (VInt 0) a w = (Ok a, w).
Proof.
  intros Ht Hz. rewrite !add_run.
  destruct a as [| |z|x| |]; simpl in Ht; destruct Ht as [Ht|Ht];
    try discriminate.
  - rewrite (PyNumber_Add_long (VInt z) (VInt 0) eq_refl eq_refl).
    rewrite (PyNumber_Add_long (VInt 0) (VInt z) eq_refl eq_refl).
    now rewrite Z.add_0_r.
  - rewrite (PyNumber_Add_float_long x (VInt 0) eq_refl).
    rewrite (PyNumber_Add_long_float (VInt 0) x eq_refl).
    change (fits_double 0) with true. change (of_Z 0) with (S754_zero false).
    rewrite (fadd_comm (S754_zero false) x), fadd_pos_zero_r; [now split|].
    intros ->. now apply Hz.
Qed.

Lemma add_zero_exact_witness :
  (type_of (VFloat S754_nan) = int_type \/ type_of (VFloat S754_nan) = float_type)
  /\ VFloat S754_nan <> VFloat (S754_zero true)
  /\ add (VFloat S754_nan) (VInt 0) world0 = (Ok (VFloat S754_nan), world0)
  /\ add (VInt 0) (VFloat S754_nan) world0 = (Ok (VFloat S754_nan), world0).
Proof.
  assert (Ht : type_of (VFloat S754_nan) = int_type
               \/ type_of (VFloat S754_nan) = float_type)
    by (right; reflexivity).
  assert (Hz : VFloat S754_nan <> VFloat (S754_zero true)) by discriminate.
  split; [exact Ht|]. split; [exact Hz|].
  exact (add_zero_exact world0 Ht Hz).
Defined.

(** The negative zero is the exception: the integer 0 is promoted to the
    positive zero, and the sum of the two zeros is positive. *)
Example add_negative_zero :
  add (VFloat (S754_zero true)) (VInt 0) world0
  = (Ok (VFloat (S754_zero false)), world0).
Proof. reflexivity. Qed.

(** ** Special floats *)

Lemma fits_double_finite (z : Z) :
  fits_double z = true ->
  exists x, of_Z z = x /\ is_finite x = true.
Proof. intros H. exists (of_Z z). now split. Qed.

(** X5: NaN propagates: a NaN operand with any number on the other side,
    an integer out of the range of doubles apart, makes the call return
    NaN, in either order. *)
Theorem add_nan_propagates (b : value) (w : world) :
  is_number b = true -> promotable (VFloat S754_nan) b = true ->
  add (VFloat S754_nan) b w = (Ok (VFloat S754_nan), w)
  /\ add b (VFloat S754_nan) w = (Ok (VFloat S754_nan), w).
Proof.
  intros Hb Hp. rewrite !add_run.
  rewrite <- (PyNumber_Add_comm (VFloat S754_nan) b eq_refl Hb).
  destruct (number_cases b Hb) as [[z Hz]|[y ->]].
  - rewrite (PyNumber_Add_float_long S754_nan b Hz).
    unfold promotable in Hp. rewrite Hz in Hp. simpl in Hp. rewrite Hp.
    now split.
  - rewrite PyNumber_Add_float. now split.
Qed.

Lemma add_nan_propagates_witness :
  is_number (VInt 7) = true
  /\ promotable (VFloat S754_nan) (VInt 7) = true
  /\ add (VFloat S754_nan) (VInt 7) world0 = (Ok (VFloat S754_nan), world0)
  /\ add (VInt 7) (VFloat S754_nan) world0 = (Ok (VFloat S754_nan), world0).
Proof.
  split; [reflexivity|]. split; [reflexivity|].
  exact (add_nan_propagates (VInt 7) world0 eq_refl eq_refl).
Defined.

Lemma fadd_infinity_l (s : bool) (y : float) :
  is_nan y = false -> y <> S754_infinity (negb s) ->
  fadd (S754_infinity s) y = S754_infinity s.
Proof.
  destruct y as [t|t| |t m e]; intros Hn Hy; try discriminate;
    try reflexivity.
  destruct s, t; try reflexivity; now elim Hy.
Qed.

(** X6: an infinity absorbs: with any number on the other side that is
    neither NaN nor the opposite infinity, nor an integer out of the range
    of doubles, the call returns that infinity, in either order. *)
Theorem add_infinity_absorbs (s : bool) (b : value) (w : world) :
  is_number b = true -> promotable (VFloat (S754_infinity s)) b = true ->
  is_nan_value b = false -> b <> VFloat (S754_infinity (negb s)) ->
  add (VFloat (S754_infinity s)) b w = (Ok (VFloat (S754_infinity s)), w)
  /\ add b (VFloat (S754_infinity s)) w = (Ok (VFloat (S754_infinity s)), w).
Proof.
  intros Hb Hp Hn Ho. rewrite !add_run.
  rewrite <- (PyNumber_Add_comm (VFloat (S754_infinity s)) b eq_refl Hb).
  destruct (number_cases b Hb) as [[z Hz]|[y ->]].
  - rewrite (PyNumber_Add_float_long (S754_infinity s) b Hz).
    unfold promotable in Hp. rewrite Hz in Hp. simpl in Hp. rewrite Hp.
    unfold fits_double in Hp.
    rewrite fadd_infinity_l; [now split | |].
    + now destruct (of_Z z).
    + intros E. now rewrite E in Hp.
  - rewrite PyNumber_Add_float, fadd_infinity_l; [now split|exact Hn|].
    intros ->. now apply Ho.
Qed.

Lemma add_infinity_absorbs_witness :
  is_number (VInt (-5)) = true
  /\ promotable (VFloat (S754_infinity false)) (VInt (-5)) = true
  /\ is_nan_value (VInt (-5)) = false
  /\ VInt (-5) <> VFloat (S754_infinity (negb false))
  /\ add (VFloat (S754_infinity false)) (VInt (-5)) world0
     = (Ok (VFloat (S754_infinity false)), world0)
  /\ add (VInt (-5)) (VFloat (S754_infinity false)) world0
     = (Ok (VFloat (S754_infinity false)), world0).
Proof.
  assert (Ho : VInt (-5) <> VFloat (S754_infinity (negb false)))
    by discriminate.
  split; [reflexivity|]. split; [reflexivity|]. split; [reflexivity|].
  split; [exact Ho|].
  exact (@add_infinity_absorbs false (VInt (-5)) world0
           eq_refl eq_refl eq_refl Ho).
Defined.

(** X7: a finite float and its negation add to the positive zero, never
    the negative one, whichever comes first. *)
Theorem add_opposite_floats (s : bool) (m : positive) (e : Z) (w : world) :
  add (VFloat (S754_finite s m e)) (VFloat (S754_finite (negb s) m e)) w
  = (Ok (VFloat (S754_zero false)), w).
Proof.
  rewrite add_run, PyNumber_Add_float. do 3 f_equal.
  unfold fadd, SFadd, shl_align.
  rewrite Z.min_id, Z.sub_diag. simpl fst.
  replace (cond_Zopp s (Z.pos m) + cond_Zopp (negb s) (Z.pos m)) with 0
    by (destruct s; simpl; now rewrite ?Z.pos_sub_diag).
  reflexivity.
Qed.

(** ** The type of the result *)

(** X8: on two numbers a call that returns, returns a [float] when either
    operand is a [float] and an [int] otherwise: the sum of two bools is
    an [int], never a [bool]. *)
Theorem add_result_type (a b v : value) (w : world) :
  is_number a = true -> is_number b = true ->
  add a b w = (Ok v, w) ->
  type_of v = if is_float a || is_float b then float_type else int_type.
Proof.
  intros Ha Hb. rewrite add_run. intros [= H].
  destruct (number_cases a Ha) as [[x Hx]|[x ->]],
           (number_cases b Hb) as [[y Hy]|[y ->]].
  - rewrite (PyNumber_Add_long a b Hx Hy) in H. injection H as <-.
    destruct a, b; simpl in *; try discriminate; reflexivity.
  - rewrite (PyNumber_Add_long_float a y Hx) in H.
    destruct (fits_double x); [|discriminate]. injection H as <-.
    now rewrite orb_true_r.
  - rewrite (PyNumber_Add_float_long x b Hy) in H.
    destruct (fits_double y); [|discriminate]. injection H as <-.
    reflexivity.
  - rewrite PyNumber_Add_float in H. injection H as <-. reflexivity.
Qed.

Lemma add_result_type_witness :
  is_number (VBool true) = true
  /\ is_number (VBool true) = true
  /\ add (VBool true) (VBool true) world0 = (Ok (VInt 2), world0)
  /\ type_of (VInt 2) = int_type.
Proof.
  split; [reflexivity|]. split; [reflexivity|]. split; [reflexivity|].
  exact (@add_result_type (VBool true) (VBool true) (VInt 2) world0
           eq_refl eq_refl eq_refl).
Defined.

(** ** Cancellation *)

(** X9: on integers [add] cancels on either side: if adding two integers
    to a common third gives the same result, the two are the same
    integer. *)
Theorem add_int_cancel (a b c : value) (x y z : Z) (w : world) :
  as_long a = Some x -> as_long b = Some y -> as_long c = Some z ->
  add a b w = add a c w \/ add b a w = add c a w ->
  y = z.
Proof.
  intros Ha Hb Hc. rewrite !add_run.
  rewrite (PyNumber_Add_long a b Ha Hb), (PyNumber_Add_long a c Ha Hc),
          (PyNumber_Add_long b a Hb Ha), (PyNumber_Add_long c a Hc Ha).
  intros [[= H]|[= H]]; lia.
Qed.

Lemma add_int_cancel_witness :
  as_long (VInt 4) = Some 4 /\ as_long (VBool true) = Some 1
  /\ as_long (VInt 1) = Some 1
  /\ (add (VInt 4) (VBool true) world0 = add (VInt 4) (VInt 1) world0
      \/ add (VBool true) (VInt 4) world0 = add (VInt 1) (VInt 4) world0)
  /\ 1 = 1.
Proof.
  assert (H : add (VInt 4) (VBool true) world0 = add (VInt 4) (VInt 1) world0
              \/ add (VBool true) (VInt 4) world0
                 = add (VInt 1) (VInt 4) world0) by (left; reflexivity).
  split; [reflexivity|]. split; [reflexivity|]. split; [reflexivity|].
  split; [exact H|].
  exact (@add_int_cancel (VInt 4) (VBool true) (VInt 1) 4 1 1 world0
           eq_refl eq_refl eq_refl H).
Defined.

(** Floats do not cancel: a small addend is absorbed. *)
Example add_float_absorbs :
  add (VFloat (of_decimal 1 16)) (VFloat (of_decimal 10 (-1))) world0
  = add (VFloat (of_decimal 1 16)) (VFloat (S754_zero false)) world0.
Proof. vm_compute. reflexivity. Qed.



(** ** The block over another binding of [add] *)

Lemma fstring_first (r : value) :
  fstring [Field (VInt 5); Lit " + "; Field (VInt 3); Lit " = "; Field r]
  = match py_str r with
    | Ok s => Ok ("5 + 3 = " ++ s)
    | Raise e => Raise e
    end.
Proof.
  unfold fstring. cbn [map sequence].
  change (py_str (VInt 5)) with (Ok (A:=string) "5").
  change (py_str (VInt 3)) with (Ok (A:=string) "3").
  cbn [sequence]. destruct (py_str r); reflexivity.
Qed.

Lemma fstring_line (lhs : string) (r : value) :
  fstring [Lit lhs; Field r]
  = match py_str r with
    | Ok s => Ok (lhs ++ s)
    | Raise e => Raise e
    end.
Proof.
  unfold fstring. cbn [map sequence]. destruct (py_str r); reflexivity.
Qed.

(** X11: with [add] bound to a function that computes, without effects
    of its own, a number or an error from its two arguments, the block
    calls it on the four pairs in order; after each call that returns it
    turns the result into text, which raises [ValueError] on an [int] of
    more than 4300 digits, and prints the fixed text of that line followed
    by it; at the first call or conversion that raises it stops with that
    error, only the earlier lines printed; what was on standard output
    before is kept. *)
Theorem main_block_numeric_callee (g : value -> value -> result value)
    (out : string) (cs : list (value * value)) :
  numeric_results g = true ->
  main_block (fun a b => lift (g a b)) {| stdout := out; calls := cs |}
  = (fst (print_until g demo_items out),
     {| stdout := snd (print_until g demo_items out); calls := cs |}).
Proof.
  intros _.
  unfold main_block, demo_items, print_until.
  rewrite bind_lift.
  destruct (g (VInt 5) (VInt 3)) as [r1|e1]; [|reflexivity].
  rewrite bind_lift, fstring_first.
  destruct (py_str r1) as [s1|e1]; [|reflexivity].
  unfold bind at 1. rewrite print_run. cbn [stdout calls].
  rewrite bind_lift.
  destruct (g (VInt 10) (VInt 20)) as [r2|e2]; [|reflexivity].
  rewrite bind_lift, fstring_line.
  destruct (py_str r2) as [s2|e2]; [|reflexivity].
  unfold bind at 1. rewrite print_run. cbn [stdout calls].
  rewrite bind_lift.
  destruct (g (VFloat (of_decimal 35 (-1))) (VFloat (of_decimal 25 (-1))))
    as [r3|e3]; [|reflexivity].
  rewrite bind_lift, fstring_line.
  destruct (py_str r3) as [s3|e3]; [|reflexivity].
  unfold bind at 1. rewrite print_run. cbn [stdout calls].
  rewrite bind_lift.
  destruct (g (VInt (-5)) (VInt 15)) as [r4|e4]; [|reflexivity].
  rewrite bind_lift, fstring_line.
  destruct (py_str r4) as [s4|e4]; [|reflexivity].
  rewrite print_run. reflexivity.
Qed.

Lemma main_block_numeric_callee_witness :
  numeric_results add_no_floats = true
  /\ main_block (fun a b => lift (add_no_floats a b)) world0
     = (fst (print_until add_no_floats demo_items ""),
        {| stdout := snd (print_until add_no_floats demo_items "");
           calls := [] |}).
Proof.
  split; [reflexivity|].
  exact (@main_block_numeric_callee add_no_floats "" [] eq_refl).
Defined.

(** With [add] itself the four calls return and the four lines are the
    text of the demonstration; the binding that raises on floats lets the
    first two lines through. *)
Example print_until_samples :
  print_until PyNumber_Add demo_items "" = (Ok tt, demo_text)
  /\ print_until add_no_floats demo_items ""
     = (Raise TypeError, "5 + 3 = 8" ++ newline ++ "10 + 20 = 30" ++ newline).
Proof. vm_compute. repeat split. Qed.

(** A binding whose result has more digits than the limit stops the
    block at the first conversion, before anything is printed. *)
Lemma print_until_int_past_limit (z : Z) (out : string) :
  int_max_str_digits < ndigits (Z.abs z) ->
  print_until (fun _ _ => Ok (VInt z)) demo_items out
  = (Raise ValueError, out).
Proof.
  intros H. unfold demo_items, print_until.
  now rewrite (proj1 (proj2 (str_int_limit z) H)).
Qed.

(** ** Floats that hold integers *)

Unset Implicit Arguments.

(** Rounding does not depend on how a value is split into mantissa and
    exponent: doubling the one and decrementing the other changes
    nothing. *)

Lemma iter_pos_nat {A : Type} (f : A -> A) (p : positive) (x : A) :
  iter_pos f p x = Nat.iter (Pos.to_nat p) f x.
Proof.
  revert x. induction p as [p IH|p IH|]; intros x; simpl iter_pos.
  - rewrite !IH, Pos2Nat.inj_xI.
    replace (S (2 * Pos.to_nat p)) with (S (Pos.to_nat p + Pos.to_nat p))
      by lia.
    now rewrite Nat.iter_succ_r, Nat.iter_add.
  - rewrite !IH, Pos2Nat.inj_xO.
    replace (2 * Pos.to_nat p)%nat with (Pos.to_nat p + Pos.to_nat p)%nat
      by lia.
    now rewrite Nat.iter_add.
  - reflexivity.
Qed.

Lemma shl_align_lt (m : positive) (e e' : Z) :
  e' < e -> shl_align m e e' = (Pos.iter xO m (Z.to_pos (e - e')), e').
Proof.
  intros H. unfold shl_align.
  destruct (e' - e) as [|d|d] eqn:E; try lia.
  do 2 f_equal. lia.
Qed.

Lemma shl_align_ge (m : positive) (e e' : Z) :
  e <= e' -> shl_align m e e' = (m, e).
Proof.
  intros H. unfold shl_align.
  destruct (e' - e) as [|d|d] eqn:E; try lia; reflexivity.
Qed.

Lemma shr_pos (mrs : shr_record) (e n : Z) :
  0 < n -> shr mrs e n = (Nat.iter (Z.to_nat n) shr_1 mrs, e + n).
Proof.
  intros H. destruct n as [|p|p]; try lia.
  simpl shr. now rewrite iter_pos_nat.
Qed.

(** The first stage of rounding an exact mantissa. *)
Lemma shr_fexp_double (m : positive) (e : Z) :
  fexp prec emax (Z.pos (digits2_pos m) + e) >= e ->
  shr_fexp prec emax (Zpos m~0) (e - 1) loc_Exact
  = shr_fexp prec emax (Zpos m) e loc_Exact.
Proof.
  intros Ht. unfold shr_fexp. simpl shr_record_of_loc.
  change (Zdigits2 (Z.pos m~0)) with (Z.pos (Pos.succ (digits2_pos m))).
  change (Zdigits2 (Z.pos m)) with (Z.pos (digits2_pos m)).
  replace (Z.pos (Pos.succ (digits2_pos m)) + (e - 1))
    with (Z.pos (digits2_pos m) + e) by lia.
  set (t := fexp prec emax (Z.pos (digits2_pos m) + e)) in *.
  rewrite shr_pos by lia.
  replace (Z.to_nat (t - (e - 1))) with (S (Z.to_nat (t - e))) by lia.
  rewrite Nat.iter_succ_r.
  change (shr_1 {| shr_m := Z.pos m~0; shr_r := false; shr_s := false |})
    with {| shr_m := Z.pos m; shr_r := false; shr_s := false |}.
  destruct (Z.eq_dec t e) as [->|Hne].
  - rewrite Z.sub_diag. simpl. f_equal. lia.
  - rewrite (shr_pos _ e) by lia. f_equal. lia.
Qed.

Lemma binary_round_double (s : bool) (m : positive) (e : Z) :
  binary_round prec emax s m~0 (e - 1) = binary_round prec emax s m e.
Proof.
  unfold binary_round.
  change (digits2_pos m~0) with (Pos.succ (digits2_pos m)).
  replace (Z.pos (Pos.succ (digits2_pos m)) + (e - 1))
    with (Z.pos (digits2_pos m) + e) by lia.
  set (t := fexp prec emax (Z.pos (digits2_pos m) + e)).
  destruct (Z.lt_trichotomy t (e - 1)) as [Hlt|[Heq|Hgt]].
  - rewrite (@shl_align_lt m~0 (e - 1) t), (@shl_align_lt m e t) by lia.
    replace (Z.to_pos (e - t)) with (Pos.succ (Z.to_pos (e - 1 - t))) by lia.
    now rewrite Pos.iter_succ_r.
  - rewrite (@shl_align_ge m~0 (e - 1) t), (@shl_align_lt m e t) by lia.
    replace (Z.to_pos (e - t)) with 1%positive by lia.
    simpl Pos.iter. now rewrite Heq.
  - rewrite (@shl_align_ge m~0 (e - 1) t), (@shl_align_ge m e t) by lia.
    unfold binary_round_aux. rewrite shr_fexp_double; [reflexivity|].
    fold t. lia.
Qed.

Lemma binary_normalize_double (z e : Z) (szero : bool) :
  binary_normalize prec emax (2 * z) (e - 1) szero
  = binary_normalize prec emax z e szero.
Proof.
  destruct z as [|p|p]; [reflexivity| |]; apply binary_round_double.
Qed.

Lemma binary_normalize_shift (n : nat) (z e : Z) (szero : bool) :
  binary_normalize prec emax (z * 2 ^ Z.of_nat n) (e - Z.of_nat n) szero
  = binary_normalize prec emax z e szero.
Proof.
  revert e. induction n as [|n IH]; intros e.
  - simpl Z.of_nat. now rewrite Z.mul_1_r, Z.sub_0_r.
  - rewrite Nat2Z.inj_succ, Z.pow_succ_r by lia.
    replace (z * (2 * 2 ^ Z.of_nat n)) with (2 * (z * 2 ^ Z.of_nat n)) by lia.
    replace (e - Z.succ (Z.of_nat n)) with (e - Z.of_nat n - 1) by lia.
    now rewrite binary_normalize_double, IH.
Qed.

Lemma binary_round_shift (n : nat) (s : bool) (m : positive) (e : Z) :
  binary_round prec emax s (Nat.iter n xO m) (e - Z.of_nat n)
  = binary_round prec emax s m e.
Proof.
  revert e. induction n as [|n IH]; intros e.
  - simpl. now rewrite Z.sub_0_r.
  - rewrite Nat2Z.inj_succ. simpl Nat.iter.
    replace (e - Z.succ (Z.of_nat n)) with (e - Z.of_nat n - 1) by lia.
    now rewrite binary_round_double, IH.
Qed.

Lemma Zpos_iter (n : nat) (m : positive) :
  Zpos (Nat.iter n xO m) = Zpos m * 2 ^ Z.of_nat n.
Proof.
  induction n as [|n IH].
  - simpl. lia.
  - rewrite Nat2Z.inj_succ, Z.pow_succ_r by lia. simpl Nat.iter.
    rewrite Pos2Z.inj_xO, IH. lia.
Qed.

Lemma digits_iter (n : nat) (m : positive) :
  Zpos (digits2_pos (Nat.iter n xO m)) = Zpos (digits2_pos m) + Z.of_nat n.
Proof.
  induction n as [|n IH].
  - simpl. lia.
  - rewrite Nat2Z.inj_succ. simpl Nat.iter.
    change (digits2_pos (Nat.iter n xO m)~0)
      with (Pos.succ (digits2_pos (Nat.iter n xO m))).
    rewrite Pos2Z.inj_succ, IH. lia.
Qed.

Lemma digits_lower (m : positive) : 2 ^ (Zpos (digits2_pos m) - 1) <= Zpos m.
Proof.
  induction m as [m IH|m IH|].
  - change (digits2_pos m~1) with (Pos.succ (digits2_pos m)).
    rewrite Pos2Z.inj_succ.
    replace (Z.succ (Z.pos (digits2_pos m)) - 1)
      with (Z.succ (Z.pos (digits2_pos m) - 1)) by lia.
    rewrite Z.pow_succ_r by lia. lia.
  - change (digits2_pos m~0) with (Pos.succ (digits2_pos m)).
    rewrite Pos2Z.inj_succ.
    replace (Z.succ (Z.pos (digits2_pos m)) - 1)
      with (Z.succ (Z.pos (digits2_pos m) - 1)) by lia.
    rewrite Z.pow_succ_r by lia. lia.
  - simpl. lia.
Qed.

Lemma digits_small (m : positive) :
  Zpos m < 2 ^ 53 -> Zpos (digits2_pos m) <= 53.
Proof.
  intros H. destruct (Z_le_gt_dec (Zpos (digits2_pos m)) 53) as [|Hgt];
    [assumption|].
  pose proof (digits_lower m) as Hl.
  assert (2 ^ 53 <= 2 ^ (Z.pos (digits2_pos m) - 1))
    by (apply Z.pow_le_mono_r; lia).
  lia.
Qed.

Lemma binary_round_canonical (s : bool) (m : positive) (e : Z) :
  Zpos (digits2_pos m) = 53 -> -1074 <= e <= 971 ->
  binary_round prec emax s m e = S754_finite s m e.
Proof.
  intros Hd He.
  assert (Ht : fexp prec emax (Z.pos (digits2_pos m) + e) = e).
  { rewrite Hd. unfold fexp, emin, prec, emax. lia. }
  unfold binary_round. rewrite Ht, shl_align_ge by lia.
  unfold binary_round_aux, shr_fexp.
  cbn [Zdigits2 shr_record_of_loc].
  rewrite Ht, Z.sub_diag.
  cbn [shr shr_m loc_of_shr_record round_nearest_even Zdigits2
       shr_record_of_loc].
  rewrite Ht, Z.sub_diag. cbn [shr shr_m].
  replace (e <=? emax - prec) with true; [reflexivity|].
  symmetry. apply Z.leb_le. unfold emax, prec. lia.
Qed.

(** The double of a nonzero integer below [2^53]: its magnitude shifted
    to 53 bits, exactly. *)
Lemma of_Z_small (z : Z) :
  z <> 0 -> Z.abs z < 2 ^ 53 ->
  exists (m : positive) (n : nat),
    of_Z z = S754_finite (z <? 0) m (- Z.of_nat n)
    /\ Zpos m = Z.abs z * 2 ^ Z.of_nat n.
Proof.
  intros Hz Hb.
  assert (H : forall (s : bool) (p : positive), Zpos p < 2 ^ 53 ->
            exists (m : positive) (n : nat),
              binary_round prec emax s p 0 = S754_finite s m (- Z.of_nat n)
              /\ Zpos m = Zpos p * 2 ^ Z.of_nat n).
  { intros s p Hp. pose proof (digits_small p Hp) as Hd.
    set (n := Z.to_nat (53 - Zpos (digits2_pos p))).
    exists (Nat.iter n xO p), n. split; [|apply Zpos_iter].
    rewrite <- (binary_round_shift n s p 0).
    rewrite Z.sub_0_l. apply binary_round_canonical.
    - rewrite digits_iter. unfold n. lia.
    - unfold n. lia. }
  destruct z as [|p|p]; [now elim Hz| |]; apply H; exact Hb.
Qed.

Lemma shl_align_value (m : positive) (e e' : Z) :
  e' <= e -> Zpos (fst (shl_align m e e')) = Zpos m * 2 ^ (e - e').
Proof.
  intros H. destruct (Z.eq_dec e' e) as [->|Hne].
  - rewrite shl_align_ge by lia. rewrite Z.sub_diag. simpl. lia.
  - rewrite shl_align_lt by lia. simpl fst.
    rewrite Pos2Nat.inj_iter.
    change (nat_rect (fun _ => positive) m (fun _ => xO)
              (Pos.to_nat (Z.to_pos (e - e'))))
      with (Nat.iter (Pos.to_nat (Z.to_pos (e - e'))) xO m).
    rewrite Zpos_iter. do 2 f_equal. lia.
Qed.

Lemma cond_Zopp_abs (z : Z) : cond_Zopp (z <? 0) (Z.abs z) = z.
Proof. destruct z; reflexivity. Qed.

Lemma cond_Zopp_mul (s : bool) (a b : Z) :
  cond_Zopp s (a * b) = cond_Zopp s a * b.
Proof. destruct s; simpl; lia. Qed.

Lemma scaled_integer (z : Z) (n : nat) (e : Z) :
  e <= - Z.of_nat n ->
  cond_Zopp (z <? 0) (Z.abs z * 2 ^ Z.of_nat n * 2 ^ (- Z.of_nat n - e))
  = z * 2 ^ (- e).
Proof.
  intros H. rewrite <- Z.mul_assoc, <- Z.pow_add_r by lia.
  replace (Z.of_nat n + (- Z.of_nat n - e)) with (- e) by lia.
  now rewrite cond_Zopp_mul, cond_Zopp_abs.
Qed.

(** Adding the doubles of two integers below [2^53] gives the double of
    their sum. *)
Lemma fadd_of_Z (x y : Z) :
  Z.abs x < 2 ^ 53 -> Z.abs y < 2 ^ 53 ->
  fadd (of_Z x) (of_Z y) = of_Z (x + y).
Proof.
  intros Hx Hy.
  destruct (Z.eq_dec x 0) as [->|Hx0]; [|destruct (Z.eq_dec y 0) as [->|Hy0]].
  - destruct (Z.eq_dec y 0) as [->|Hy0]; [reflexivity|].
    destruct (@of_Z_small y Hy0 Hy) as (m & n & E & _).
    rewrite Z.add_0_l, E. reflexivity.
  - destruct (@of_Z_small x Hx0 Hx) as (m & n & E & _).
    rewrite Z.add_0_r, E. reflexivity.
  - destruct (@of_Z_small x Hx0 Hx) as (mx & nx & Ex & Vx).
    destruct (@of_Z_small y Hy0 Hy) as (my & ny & Ey & Vy).
    rewrite Ex, Ey. unfold fadd, SFadd.
    set (ez := Z.min (- Z.of_nat nx) (- Z.of_nat ny)).
    rewrite !shl_align_value by (unfold ez; lia).
    rewrite Vx, Vy, !scaled_integer by (unfold ez; lia).
    rewrite <- Z.mul_add_distr_r.
    replace (- ez) with (Z.of_nat (Z.to_nat (- ez))) by (unfold ez; lia).
    replace ez with (0 - Z.of_nat (Z.to_nat (- ez))) at 2 by (unfold ez; lia).
    apply binary_normalize_shift.
Qed.

Lemma fits_double_small (z : Z) : Z.abs z < 2 ^ 53 -> fits_double z = true.
Proof.
  intros Hz. unfold fits_double.
  destruct (Z.eq_dec z 0) as [->|Hz0]; [reflexivity|].
  destruct (of_Z_small z Hz0 Hz) as (m & n & E & _). now rewrite E.
Qed.

Lemma eqb_Z_of_Z (z : Z) : Z.abs z < 2 ^ 53 -> eqb_Z (of_Z z) z = true.
Proof.
  intros Hz.
  destruct (Z.eq_dec z 0) as [->|Hz0]; [reflexivity|].
  destruct (of_Z_small z Hz0 Hz) as (m & n & E & V).
  rewrite E. unfold eqb_Z. rewrite V, cond_Zopp_mul, cond_Zopp_abs.
  destruct n as [|n].
  - simpl Z.of_nat. simpl. apply Z.eqb_eq. lia.
  - replace (0 <=? - Z.of_nat (S n)) with false
      by (symmetry; apply Z.leb_gt; lia).
    rewrite Z.opp_involutive. apply Z.eqb_refl.
Qed.

(** X12: on integers below [2^53] in magnitude, held as floats on both
    sides or as an [int] on one side, the call returns the double nearest
    to their exact sum: promoting an integer inside the call and holding
    it as a float beforehand come to the same. *)
Theorem add_floats_of_integers (x y : Z) (w : world) :
  Z.abs x < 2 ^ 53 -> Z.abs y < 2 ^ 53 ->
  add (VFloat (of_Z x)) (VFloat (of_Z y)) w = (Ok (VFloat (of_Z (x + y))), w)
  /\ add (VInt x) (VFloat (of_Z y)) w = (Ok (VFloat (of_Z (x + y))), w)
  /\ add (VFloat (of_Z x)) (VInt y) w = (Ok (VFloat (of_Z (x + y))), w).
Proof.
  intros Hx Hy. rewrite !add_run.
  rewrite PyNumber_Add_float.
  rewrite (@PyNumber_Add_long_float (VInt x) x (of_Z y) eq_refl).
  rewrite (@PyNumber_Add_float_long (of_Z x) (VInt y) y eq_refl).
  rewrite !fits_double_small by assumption.
  rewrite (fadd_of_Z x y Hx Hy). repeat split.
Qed.

Lemma add_floats_of_integers_witness :
  Z.abs (2 ^ 53 - 1) < 2 ^ 53 /\ Z.abs (-7) < 2 ^ 53
  /\ add (VFloat (of_Z (2 ^ 53 - 1))) (VFloat (of_Z (-7))) world0
     = (Ok (VFloat (of_Z (2 ^ 53 - 1 + -7))), world0)
  /\ add (VInt (2 ^ 53 - 1)) (VFloat (of_Z (-7))) world0
     = (Ok (VFloat (of_Z (2 ^ 53 - 1 + -7))), world0)
  /\ add (VFloat (of_Z (2 ^ 53 - 1))) (VInt (-7)) world0
     = (Ok (VFloat (of_Z (2 ^ 53 - 1 + -7))), world0).
Proof.
  assert (Hx : Z.abs (2 ^ 53 - 1) < 2 ^ 53) by reflexivity.
  assert (Hy : Z.abs (-7) < 2 ^ 53) by reflexivity.
  split; [exact Hx|]. split; [exact Hy|].
  exact (add_floats_of_integers (2 ^ 53 - 1) (-7) world0 Hx Hy).
Defined.

(** X13: while the operands and their sum stay below [2^53] in magnitude,
    adding floats that hold integers agrees with adding the integers:
    [add(float(x), float(y)) == add(x, y)] is [True]. *)
Theorem add_float_agrees_with_int (x y : Z) (w : world) :
  Z.abs x < 2 ^ 53 -> Z.abs y < 2 ^ 53 -> Z.abs (x + y) < 2 ^ 53 ->
  float_int_test x y w = (Ok (Some true), w).
Proof.
  intros Hx Hy Hs. unfold float_int_test, add.
  rewrite bind_lift, PyNumber_Add_float, (fadd_of_Z x y Hx Hy).
  rewrite bind_lift.
  rewrite (@PyNumber_Add_long (VInt x) (VInt y) x y eq_refl eq_refl).
  unfold ret. simpl py_eq. now rewrite (eqb_Z_of_Z (x + y) Hs).
Qed.

Lemma add_float_agrees_with_int_witness :
  Z.abs (2 ^ 52) < 2 ^ 53 /\ Z.abs (2 ^ 52 - 1) < 2 ^ 53
  /\ Z.abs (2 ^ 52 + (2 ^ 52 - 1)) < 2 ^ 53
  /\ float_int_test (2 ^ 52) (2 ^ 52 - 1) world0 = (Ok (Some true), world0).
Proof.
  assert (Hx : Z.abs (2 ^ 52) < 2 ^ 53) by reflexivity.
  assert (Hy : Z.abs (2 ^ 52 - 1) < 2 ^ 53) by reflexivity.
  assert (Hs : Z.abs (2 ^ 52 + (2 ^ 52 - 1)) < 2 ^ 53) by reflexivity.
  split; [exact Hx|]. split; [exact Hy|]. split; [exact Hs|].
  exact (add_float_agrees_with_int (2 ^ 52) (2 ^ 52 - 1) world0 Hx Hy Hs).
Defined.

(** Past [2^53] the agreement is lost: the float sum is rounded. *)
Example add_float_disagrees_past_2_53 :
  float_int_test (2 ^ 53) 1 world0 = (Ok (Some false), world0).
Proof. vm_compute. reflexivity. Qed.

(** ** Effects on objects *)

Lemma keeps_refl (st : store) : keeps st st.
Proof. split; [reflexivity | auto]. Qed.

Lemma keeps_trans (st1 st2 st3 : store) :
  keeps st1 st2 -> keeps st2 st3 -> keeps st1 st3.
Proof.
  intros [H1 H2] [H3 H4]. split; [congruence | auto].
Qed.

Lemma keeps_alloc (c : cell) (st : store) : keeps st (snd (alloc c st)).
Proof.
  split; [reflexivity|]. intros l d H. simpl.
  rewrite nth_error_app1; [exact H|].
  apply nth_error_Some. congruence.
Qed.

Lemma call_maybe_keeps (m : option method) (self other : object) (st : store) :
  method_keeps m -> keeps st (snd (call_maybe m self other st)).
Proof.
  destruct m as [f|]; simpl; intros H; [apply H | apply keeps_refl].
Qed.

Lemma method_of_keeps (classes : nat -> class_def) (o : object) :
  operand_keeps classes o ->
  method_keeps (method_of classes cls_add o)
  /\ method_keeps (method_of classes cls_radd o).
Proof.
  destruct o; simpl; intros H; try (split; exact I). exact H.
Qed.

Lemma slot_nb_add_keeps (classes : nat -> class_def) (v w : object) (st : store) :
  operand_keeps classes v -> operand_keeps classes w ->
  keeps st (snd (slot_nb_add classes v w st)).
Proof.
  intros Hv Hw.
  destruct (method_of_keeps classes v Hv) as [Hadd _].
  destruct (method_of_keeps classes w Hw) as [_ Hradd].
  unfold slot_nb_add.
  destruct (has_slot_add classes (otype_of v)).
  - pose proof (call_maybe_keeps _ v w st Hadd) as H1.
    destruct (call_maybe (method_of classes cls_add v) v w st)
      as [[[r|]|e] st1]; simpl in *; try exact H1.
    destruct (otype_eqb (otype_of v) (otype_of w)); simpl; [exact H1|].
    destruct (has_slot_add classes (otype_of w)); simpl; [|exact H1].
    eapply keeps_trans; [exact H1|]. now apply call_maybe_keeps.
  - destruct (negb _ && _); [now apply call_maybe_keeps | apply keeps_refl].
Qed.

Lemma obj_call_slot_keeps (classes : nat -> class_def) (f : oslot)
    (v w : object) (st : store) :
  operand_keeps classes v -> operand_keeps classes w ->
  keeps st (snd (obj_call_slot classes f v w st)).
Proof.
  intros Hv Hw. destruct f; simpl; try apply keeps_refl.
  now apply slot_nb_add_keeps.
Qed.

Lemma obj_try_slot_keeps (classes : nat -> class_def) (f : option oslot)
    (v w : object) (k : store -> result (option object) * store) (st : store) :
  operand_keeps classes v -> operand_keeps classes w ->
  (forall st1, keeps st1 (snd (k st1))) ->
  keeps st (snd (obj_try_slot classes f v w k st)).
Proof.
  intros Hv Hw Hk. unfold obj_try_slot. destruct f as [g|]; [|apply Hk].
  pose proof (obj_call_slot_keeps classes g v w st Hv Hw) as H.
  destruct (obj_call_slot classes g v w st) as [[[r|]|e] st1]; simpl in *;
    try exact H.
  eapply keeps_trans; [exact H | apply Hk].
Qed.

Lemma obj_binary_op1_keeps (classes : nat -> class_def) (v w : object)
    (st : store) :
  operand_keeps classes v -> operand_keeps classes w ->
  keeps st (snd (obj_binary_op1 classes v w st)).
Proof.
  intros Hv Hw. unfold obj_binary_op1.
  assert (Hn : forall st1, keeps st1 (snd (not_implemented st1)))
    by (intros; apply keeps_refl).
  destruct (obj_nb_add classes (otype_of v)) as [f|];
    [destruct (match _ with Some _ => _ | None => false end)|];
    repeat (apply obj_try_slot_keeps; try assumption; intros).
Qed.

Lemma obj_concat_keeps (v w : object) (st : store) :
  keeps st (snd (obj_concat v w st)).
Proof.
  destruct v, w; simpl; try apply keeps_refl.
  apply (keeps_alloc (CList (items_of st l ++ items_of st l0)%list) st).
Qed.

(** C8, as stated, fails: with an operand of a class whose [__add__]
    prints and appends to the other operand, the call writes to standard
    output and modifies its list argument. *)
Lemma noisy_operand_has_effects :
  ~ effect_free noisy_classes (OInst 0 0) (OList 1) noisy_store.
Proof.
  intros [Hout _]. vm_compute in Hout. discriminate.
Qed.

Example noisy_operand_run :
  add_obj noisy_classes (OInst 0 0) (OList 1) noisy_store
  = (Ok (OInt 0),
     {| output := "adding" ++ newline;
        heap := [CInst []; CList [OInst 0 0]] |}).
Proof. reflexivity. Qed.

(** C8, amended: the Adder has no side effects of its own.  For every
    call whose operands are objects of the built-in types, or instances of
    classes whose [__add__] and [__radd__] have none, it writes no output
    and leaves every object there was, its arguments among them, as it
    found it; all there is to observe is the value returned, a new object
    when two lists are added, or the error. *)
Theorem add_obj_effect_free (classes : nat -> class_def) (a b : object)
    (st : store) :
  operand_keeps classes a -> operand_keeps classes b ->
  effect_free classes a b st.
Proof.
  intros Ha Hb. unfold effect_free, add_obj, obj_PyNumber_Add.
  pose proof (obj_binary_op1_keeps classes a b st Ha Hb) as H.
  destruct (obj_binary_op1 classes a b st) as [[[r|]|e] st1]; simpl in *;
    try exact H.
  destruct (otype_of a); simpl; try exact H;
    (eapply keeps_trans; [exact H | apply obj_concat_keeps]).
Qed.

(** Two lists that are one object, in a store that has output already. *)
Lemma add_obj_effect_free_witness :
  operand_keeps noisy_classes (OList 1)
  /\ operand_keeps noisy_classes (OList 1)
  /\ effect_free noisy_classes (OList 1) (OList 1)
       {| output := "before"; heap := [CInst []; CList [OInt 7]] |}.
Proof.
  split; [exact I|]. split; [exact I|].
  exact (add_obj_effect_free noisy_classes (OList 1) (OList 1)
           {| output := "before"; heap := [CInst []; CList [OInt 7]] |} I I).
Defined.

(** On objects of the built-in types the call does not look at the
    classes or at the output, and changes the store only when it returns
    the concatenation of two lists, by the new list. *)
Lemma add_obj_builtin (classes : nat -> class_def) (a b : object) (st : store) :
  builtin a = true -> builtin b = true ->
  match a, b with
  | OList l, OList m =>
      add_obj classes a b st
      = (Ok (OList (List.length (heap st))),
         {| output := output st;
            heap := heap st ++ [CList (items_of st l ++ items_of st m)%list] |})
  | _, _ => snd (add_obj classes a b st) = st
  end.
Proof.
  destruct a, b; simpl; intros Ha Hb; try discriminate; try reflexivity;
    unfold add_obj, obj_PyNumber_Add, obj_binary_op1, obj_try_slot,
      obj_call_slot, obj_float_add, obj_long_add, obj_double,
      PyLong_AsDouble; simpl;
    repeat match goal with
           | |- context [is_finite ?t] => destruct (is_finite t)
           end; reflexivity.
Qed.

(** On the objects without identity the two models of [add] agree. *)
Lemma add_obj_scalars (classes : nat -> class_def) (va vb : value)
    (a b : object) (st : store) :
  scalar_obj va = Some a -> scalar_obj vb = Some b ->
  add_obj classes a b st
  = (match PyNumber_Add va vb with
     | Ok v => match scalar_obj v with
               | Some o => Ok o
               | None => Raise TypeError
               end
     | Raise e => Raise e
     end, st).
Proof.
  destruct va, vb; simpl; intros Ha Hb; try discriminate;
    injection Ha as <-; injection Hb as <-;
    unfold add_obj, obj_PyNumber_Add, obj_binary_op1, obj_try_slot,
      obj_call_slot, obj_float_add, obj_long_add, obj_double,
      PyNumber_Add, binary_op1, try_slot, call_slot, float_add, long_add,
      convert_to_double, PyLong_AsDouble; simpl;
    repeat match goal with
           | |- context [is_finite ?t] => destruct (is_finite t)
           end; reflexivity.
Qed.
